(** * SPARQL scalar-expression operators of rdflib, embedded in Rocq

    A shallow embedding of [rdflib/plugins/sparql/operators.py]: the
    effective boolean value, the relational [IN] scan, the logical
    conjunction, date/time compatibility, [REPLACE], the numeric builtins,
    the expression simplifier, the custom function registry and the
    [STRBEFORE]/[STRAFTER] builtins.

    Python exceptions are values of [Exn]; a computation that may raise has
    type [Result A].  Terms are a tagged union; a literal carries the slots
    of the Python object (lexical form, language, datatype, value). *)

From Stdlib Require Import ZArith String Ascii List Bool Lia.
From Stdlib Require Import DecimalString SpecFloat.
From stdpp Require Import base gmap strings list.

Local Open Scope string_scope.
Local Open Scope Z_scope.

(** ** Python exceptions and fallible computations *)

Inductive Exn : Type :=
| SPARQLError (msg : string)
| SPARQLTypeError (msg : string)
| ValueError (msg : string)
| TypeError (msg : string)
| InvalidOperation
| OverflowError
| IndexError
| AttributeError (msg : string).

(** [SPARQLTypeError] is a subclass of [SPARQLError]: a handler
    [except SPARQLError] catches both and nothing else. *)
Definition is_SPARQLError (e : Exn) : bool :=
  match e with
  | SPARQLError _ | SPARQLTypeError _ => true
  | _ => false
  end.

Inductive Result (A : Type) : Type :=
| Ok (a : A)
| Raise (e : Exn).
Arguments Ok {A} a.
Arguments Raise {A} e.

Definition bind {A B} (c : Result A) (k : A -> Result B) : Result B :=
  match c with
  | Ok a => k a
  | Raise e => Raise e
  end.

Notation "'let*' x ':=' c 'in' k" := (bind c (fun x => k))
  (at level 10, x name, c at level 100, k at level 200).

(** ** Python strings *)

Module Str.

Fixpoint startswith (a b : string) : bool :=
  match b, a with
  | EmptyString, _ => true
  | String cb b', String ca a' => Ascii.eqb ca cb && startswith a' b'
  | String _ _, EmptyString => false
  end.

(** [a.find(b)]: lowest index at which [b] occurs in [a], or [-1]. *)
Fixpoint find (a b : string) : Z :=
  if startswith a b then 0
  else match a with
       | EmptyString => -1
       | String _ a' =>
           let i := find a' b in
           if i =? -1 then -1 else i + 1
       end.

Definition len (a : string) : Z := Z.of_nat (String.length a).

Fixpoint drop (n : nat) (a : string) : string :=
  match n, a with
  | O, _ => a
  | S n', String _ a' => drop n' a'
  | S _, EmptyString => EmptyString
  end.

Fixpoint take (n : nat) (a : string) : string :=
  match n, a with
  | O, _ => EmptyString
  | S n', String c a' => String c (take n' a')
  | S _, EmptyString => EmptyString
  end.

(** Slice bounds: a negative index counts from the end, and the result
    is clamped to [0, len]. *)
Definition clamp (a : string) (i : Z) : nat :=
  let j := if i <? 0 then i + len a else i in
  Z.to_nat (Z.min (Z.max j 0) (len a)).

(** [a[:i]] *)
Definition slice_to (a : string) (i : Z) : string := take (clamp a i) a.

(** [a[i:]] *)
Definition slice_from (a : string) (i : Z) : string := drop (clamp a i) a.

Definition endswith (a b : string) : bool :=
  (String.length b <=? String.length a)%nat
  && String.eqb (drop (String.length a - String.length b) a) b.

(** [c in a] for a one-character string [c]. *)
Fixpoint contains_char (c : ascii) (a : string) : bool :=
  match a with
  | EmptyString => false
  | String x a' => Ascii.eqb x c || contains_char c a'
  end.

(** [a[i]] for [i >= 0]; out of range raises [IndexError]. *)
Definition index (a : string) (i : nat) : Result ascii :=
  match String.get i a with
  | Some c => Ok c
  | None => Raise IndexError
  end.

Definition of_Z (z : Z) : string := NilZero.string_of_int (Z.to_int z).

End Str.

(** ** Term model

    IRIs are strings; [XSD] is an open namespace, so that an attribute
    access [XSD.x] is the prefix followed by the attribute's name. *)

Abbreviation URIRef := string (only parsing).

Definition _XSD_PFX : string := "http://www.w3.org/2001/XMLSchema#".

Module XSD.
Definition term (name : String.string) : URIRef := _XSD_PFX ++ name.
Definition boolean := term "boolean".
Definition float := term "float".
Definition double := term "double".
Definition decimal := term "decimal".
Definition integer := term "integer".
Definition nonPositiveInteger := term "nonPositiveInteger".
Definition negativeInteger := term "negativeInteger".
Definition nonNegativeInteger := term "nonNegativeInteger".
Definition positiveInteger := term "positiveInteger".
Definition unsignedLong := term "unsignedLong".
Definition unsignedInt := term "unsignedInt".
Definition unsignedShort := term "unsignedShort".
Definition unsignedByte := term "unsignedByte".
Definition long := term "long".
Definition int := term "int".
Definition short := term "short".
Definition byte := term "byte".
Definition date := term "date".
Definition time := term "time".
Definition dateTime := term "dateTime".
Definition duration := term "duration".
Definition Duration := term "Duration".
Definition dayTimeDuration := term "dayTimeDuration".
Definition yearMonthDuration := term "yearMonthDuration".
Definition string := term "string".
End XSD.

Module RDF.
Definition uri : string := "http://www.w3.org/1999/02/22-rdf-syntax-ns#".
Definition nil : URIRef := uri ++ "nil".
End RDF.

(** A [decimal.Decimal]: a finite value [coef * 10 ^ exp], an infinity or
    a NaN. *)
Inductive Decimal : Type :=
| DFinite (coef : Z) (exp : Z)
| DInf (neg : bool)
| DNaN.

(** The Python objects a literal's value slot can hold.  Floats are IEEE
    754 values ([spec_float]).  [PyObject] stands for an instance of a
    class these operators never look inside ([datetime], [date], [time],
    [timedelta], [Duration], [bytes], ...): only its class name, its
    [str()] rendering and its truth value are observed. *)
Inductive PyValue : Type :=
| PyBool (b : bool)
| PyInt (z : Z)
| PyFloat (f : spec_float)
| PyDec (d : Decimal)
| PyStr (s : string)
| PyObject (cls : string) (repr : string) (truth : bool).

(** A literal: the lexical form (the literal is itself a Python string),
    [language], [datatype] and [value], the Python value its lexical form
    was converted to ([None] for an unknown datatype or an ill-formed
    lexical form). *)
Record Literal : Type := mkLiteral {
  lexical : string;
  language : option string;
  datatype : option URIRef;
  value : option PyValue
}.

(** What an evaluated argument slot can hold: a term, an unbound variable,
    an error object returned by a failed sub-expression, or [None]. *)
Inductive Value : Type :=
| TURIRef (u : URIRef)
| TBNode (id : string)
| TLiteral (l : Literal)
| TVariable (name : string)
| TError (e : Exn)
| TNone.

(** The result of [Literal.toPython()]: the value, or the literal itself
    when it has none. *)
Inductive PyObj : Type :=
| Native (v : PyValue)
| Self (l : Literal).

Definition toPython (l : Literal) : PyObj :=
  match value l with
  | Some v => Native v
  | None => Self l
  end.

Definition is_Some_b {A} (o : option A) : bool :=
  match o with
  | Some _ => true
  | None => false
  end.

(** [d == u] for a datatype slot [d] and an IRI [u]. *)
Definition dt_is (d : option URIRef) (u : URIRef) : bool :=
  match d with
  | Some x => String.eqb x u
  | None => false
  end.

(** [d in us] *)
Definition dt_in (d : option URIRef) (us : list URIRef) : bool :=
  existsb (dt_is d) us.

(** Truth value of an optional string slot: [None] and the empty string
    are false. *)
Definition truthy (d : option string) : bool :=
  match d with
  | Some x => negb (String.eqb x "")
  | None => false
  end.

(** [bool(v)] *)
Definition py_bool (v : PyValue) : bool :=
  match v with
  | PyBool b => b
  | PyInt z => negb (z =? 0)
  | PyFloat (S754_zero _) => false
  | PyFloat _ => true
  | PyDec (DFinite c _) => negb (c =? 0)
  | PyDec _ => true
  | PyStr s => negb (String.eqb s "")
  | PyObject _ _ t => t
  end.

(** Truth value of what [toPython] returned; a literal without a value is
    true when its lexical form is not empty. *)
Definition truth (o : PyObj) : bool :=
  match o with
  | Native v => py_bool v
  | Self l => negb (String.eqb (lexical l) "")
  end.

(** [str(v)] where it is fixed by the language; the renderings of floats
    and decimals are left to [PyLib] below. *)
Definition str_bool (b : bool) : string := if b then "True" else "False".

(** ** Type coercion layer *)

(** [string(s)] of the source. *)
Definition string_ (s : Value) : Result Literal :=
  match s with
  | TLiteral l =>
      if truthy (datatype l) && negb (dt_is (datatype l) XSD.string)
      then Raise (SPARQLError "Non-string datatype-literal passes as string")
      else Ok l
  | _ => Raise (SPARQLError "Non-literal passes as string")
  end.

Definition numeric_datatypes : list URIRef :=
  [ XSD.float; XSD.double; XSD.decimal; XSD.integer;
    XSD.nonPositiveInteger; XSD.negativeInteger; XSD.nonNegativeInteger;
    XSD.positiveInteger; XSD.unsignedLong; XSD.unsignedInt;
    XSD.unsignedShort; XSD.unsignedByte; XSD.long; XSD.int; XSD.short;
    XSD.byte ].

Definition numeric (expr : Value) : Result PyObj :=
  match expr with
  | TLiteral l =>
      if negb (dt_in (datatype l) numeric_datatypes)
      then Raise (SPARQLTypeError "does not have a numeric datatype!")
      else Ok (toPython l)
  | _ => Raise (SPARQLTypeError "is not a literal!")
  end.

(** ** Effective boolean value *)

Definition EBV (rt : Value) : Result PyObj :=
  match rt with
  | TLiteral l =>
      if dt_is (datatype l) XSD.boolean then Ok (toPython l)
      else if dt_is (datatype l) XSD.string || negb (is_Some_b (datatype l))
      then Ok (Native (PyBool (0 <? Str.len (lexical l))))
      else match toPython l with
           | Self _ =>
               Raise (SPARQLTypeError "Could not determine the EBV")
           | Native pyRT => Ok (Native (PyBool (py_bool pyRT)))
           end
  | _ => Raise (SPARQLTypeError "Only literals have Boolean values!")
  end.

(** ** Library functions the operators call

    The algorithms of Python's [str()] on floats and decimals, of
    [Decimal(str)], of [re.sub] and of the arithmetic of date and duration
    objects are not part of the operators; they are the fields of [PyLib].
    [re_sub pattern repl string count flags] has the argument order of
    [re.sub], [re_search pattern string flags] that of [re.search] (true
    when a match is found). *)

Class PyLib : Type := {
  str_float : spec_float -> string;
  str_Decimal : Decimal -> string;
  Decimal_of_str : string -> Result Decimal;
  Decimal_abs : Decimal -> Result Decimal;
  re_sub : string -> string -> string -> Z -> Z -> Result string;
  re_search : string -> string -> Z -> Result bool;
  py_add : PyObj -> PyObj -> Result PyValue;
  py_sub : PyObj -> PyObj -> Result PyValue
}.

(** The conversion tables of the term model: from a lexical form and a
    datatype to a Python value, and from an opaque Python object to the
    lexical form and the datatype of the literal built from it. *)
Class TermLib : Type := {
  _castLexicalToPython : string -> option URIRef -> option PyValue;
  object_lexical : string -> string -> string;
  object_datatype : string -> option URIRef
}.

(** ** Building literals *)

(** [Literal(b)] for a Python [bool]. *)
Definition Literal_bool (b : bool) : Literal :=
  {| lexical := if b then "true" else "false";
     language := None;
     datatype := Some XSD.boolean;
     value := Some (PyBool b) |}.

(** [Literal(z, datatype=dt)] for a Python [int].  The lexical form is
    [str(z)], which Python 3.11 refuses to compute for an integer of
    more than 4300 digits; the properties of results of unbounded size
    are stated below that limit. *)
Definition Literal_int (z : Z) (dt : option URIRef) : Literal :=
  {| lexical := Str.of_Z z;
     language := None;
     datatype := if truthy dt then dt else Some XSD.integer;
     value := Some (PyInt z) |}.

(** Modelled from the spec: the term constructor applied to a Python
    value (rdflib.term.Literal, whose source is not among the operators).
    The literal keeps the value; without an explicit datatype it gets the
    datatype of the value's category (integer, decimal, double, boolean). *)
Definition Literal_of {lib : PyLib} {terms : TermLib} (v : PyValue)
  (dt : option URIRef)
  : Literal :=
  match v with
  | PyBool b =>
      {| lexical := if b then "true" else "false"; language := None;
         datatype := if truthy dt then dt else Some XSD.boolean;
         value := Some v |}
  | PyInt z => Literal_int z dt
  | PyFloat f =>
      {| lexical := str_float f; language := None;
         datatype := if truthy dt then dt else Some XSD.double;
         value := Some v |}
  | PyDec d =>
      {| lexical := str_Decimal d; language := None;
         datatype := if truthy dt then dt else Some XSD.decimal;
         value := Some v |}
  | PyStr s =>
      {| lexical := s; language := None; datatype := dt; value := Some v |}
  | PyObject cls repr _ =>
      {| lexical := object_lexical cls repr; language := None;
         datatype := if truthy dt then dt else object_datatype cls;
         value := Some v |}
  end.

(** Modelled from the spec: the term constructor applied to a Python
    string, [Literal(s, lang=lang, datatype=dt)].  A literal has at most
    one of datatype and language, and no empty language tag. *)
Definition Literal_str {terms : TermLib} (s : string) (lang : option string)
  (dt : option URIRef) : Result Literal :=
  let lang := if truthy lang then lang else None in
  if is_Some_b lang && is_Some_b dt
  then Raise (TypeError "A Literal can only have one of lang or datatype")
  else Ok {| lexical := s; language := lang; datatype := dt;
             value := _castLexicalToPython s dt |}.

(** ** Relational expressions: [IN] and [NOT IN] *)

Inductive MembershipOp : Type := IN | NOT_IN.

(** The right operand of a membership test: [RDF.nil] or the list of the
    evaluated elements. *)
Inductive ExpressionList : Type :=
| NIL
| Items (l : list Value).

(** The loop [for x in other: try: if x == expr: return ... except
    SPARQLError as e: error = e], followed by the test on [error].
    [eq x expr] is Python's [x == expr]. *)
Fixpoint in_scan (eq : Value -> Value -> Result bool) (expr : Value)
  (res : bool) (other : list Value) (error : option Exn) : Result Value :=
  match other with
  | [] =>
      match error with
      | None => Ok (TLiteral (Literal_bool (xorb false res)))
      | Some e => Raise e
      end
  | x :: rest =>
      match eq x expr with
      | Ok true => Ok (TLiteral (Literal_bool (xorb true res)))
      | Ok false => in_scan eq expr res rest error
      | Raise e =>
          if is_SPARQLError e
          then in_scan eq expr res rest (Some e)
          else Raise e
      end
  end.

(** [RelationalExpression] for the operators [IN] and [NOT IN]; [other]
    is [None] when the node has no right operand.  The branch of the six
    comparison operators relies on the ordering of terms and is not
    embedded. *)
Definition RelationalExpression (eq : Value -> Value -> Result bool)
  (expr : Value) (other : option ExpressionList) (op : MembershipOp)
  : Result Value :=
  match other with
  | None => Ok expr
  | Some other =>
      let res := match op with NOT_IN => true | IN => false end in
      let other := match other with NIL => [] | Items l => l end in
      in_scan eq expr res other None
  end.

(** ** Logical connectives *)

(** [all(EBV(x) for x in xs)]: the generator is consumed from the left and
    stops at the first false value; an exception of [EBV] leaves it. *)
Fixpoint all_EBV (xs : list Value) : Result bool :=
  match xs with
  | [] => Ok true
  | x :: rest =>
      let* b := EBV x in
      if truth b then all_EBV rest else Ok false
  end.

Definition ConditionalAndExpression (expr : Value)
  (other : option (list Value)) : Result Value :=
  match other with
  | None => Ok expr
  | Some other =>
      let* b := all_EBV (expr :: other) in
      Ok (TLiteral (Literal_bool b))
  end.

Fixpoint or_scan (xs : list Value) (error : option Exn) : Result Value :=
  match xs with
  | [] =>
      match error with
      | Some e => Raise e
      | None => Ok (TLiteral (Literal_bool false))
      end
  | x :: rest =>
      match EBV x with
      | Ok b =>
          if truth b then Ok (TLiteral (Literal_bool true))
          else or_scan rest error
      | Raise e =>
          if is_SPARQLError e then or_scan rest (Some e) else Raise e
      end
  end.

Definition ConditionalOrExpression (expr : Value)
  (other : option (list Value)) : Result Value :=
  match other with
  | None => Ok expr
  | Some other => or_scan (expr :: other) None
  end.

(** ** Date and time arithmetic *)

(** [str(o)] *)
Definition py_str {lib : PyLib} (o : PyObj) : string :=
  match o with
  | Self l => lexical l
  | Native (PyBool b) => str_bool b
  | Native (PyInt z) => Str.of_Z z
  | Native (PyFloat f) => str_float f
  | Native (PyDec d) => str_Decimal d
  | Native (PyStr s) => s
  | Native (PyObject _ repr _) => repr
  end.

(** The function returns [True], [False] or, when no branch returns,
    [None]. *)
Definition isCompatibleDateTimeDatatype {lib : PyLib} (obj1 : PyObj)
  (dt1 : option URIRef) (obj2 : PyObj) (dt2 : option URIRef)
  : Result (option bool) :=
  let if_dateTime :=
    if dt_is dt1 XSD.dateTime then Ok (Some true) else Ok None in
  let if_time :=
    if dt_is dt1 XSD.time then
      if dt_is dt2 XSD.yearMonthDuration then Ok (Some false)
      else if dt_is dt2 XSD.dayTimeDuration || dt_is dt2 XSD.Duration then
        let* c := Str.index (py_str obj2) 1 in
        if Ascii.eqb "T" c then Ok (Some true) else Ok (Some false)
      else if_dateTime
    else if_dateTime in
  if dt_is dt1 XSD.date then
    if dt_is dt2 XSD.yearMonthDuration then Ok (Some true)
    else if dt_is dt2 XSD.dayTimeDuration || dt_is dt2 XSD.Duration then
      if Str.contains_char "T" (py_str obj2) then Ok (Some false)
      else Ok (Some true)
    else if_time
  else if_time.

Definition calculateFinalDateTime {lib : PyLib} {terms : TermLib} (obj1 : PyObj)
  (dt1 : option URIRef) (obj2 : PyObj) (dt2 : option URIRef)
  (operation : string) : Result Value :=
  let* compatible := isCompatibleDateTimeDatatype obj1 dt1 obj2 dt2 in
  if match compatible with Some b => b | None => false end then
    if String.eqb operation "-" then
      let* ans := py_sub obj1 obj2 in
      Ok (TLiteral (Literal_of ans dt1))
    else
      let* ans := py_add obj1 obj2 in
      Ok (TLiteral (Literal_of ans dt1))
  else Raise (SPARQLError "Incompatible Data types to DateTime Operations").

(** Modelled from the spec: the two sets of datatypes of
    rdflib.plugins.sparql.datatypes, which is not among the operators:
    date/time/dateTime on one side, duration/dayTimeDuration/
    yearMonthDuration on the other. *)
Definition XSD_DateTime_DTs : list URIRef :=
  [XSD.dateTime; XSD.date; XSD.time].
Definition XSD_Duration_DTs : list URIRef :=
  [XSD.duration; XSD.dayTimeDuration; XSD.yearMonthDuration].

Definition dateTimeObjects (expr : Literal) : PyObj := toPython expr.

Definition calculateDuration {lib : PyLib} {terms : TermLib}
  (obj1 obj2 : PyObj) : Result Value :=
  let* difference := py_sub obj1 obj2 in
  Ok (TLiteral (Literal_of difference (Some XSD.duration))).

(** [term.datatype] and [term.toPython()]: an argument that is not a
    literal has neither attribute. *)
Definition literal_of (term : Value) : Result Literal :=
  match term with
  | TLiteral l => Ok l
  | _ => Raise (AttributeError "datatype")
  end.

(** The loop [for op, term in zip(e.op, other)] of the date and time
    branch of [AdditiveExpression]; [len_other] is [len(other)].  Every
    path of the first round returns or raises, but for a duration on the
    left with an operator other than [+]; a loop that ends returns
    [None].  The message of the error for several operands is built from
    [dt.datatype], an attribute an IRI does not have. *)
Fixpoint additive_datetime_loop {lib : PyLib} {terms : TermLib}
  (res : PyObj) (dt : option URIRef) (len_other : nat)
  (pairs : list (string * Value)) : Result Value :=
  match pairs with
  | [] => Ok TNone
  | (op, term) :: rest =>
      let* t := literal_of term in
      if dt_in dt XSD_DateTime_DTs
         && bool_decide (dt = datatype t) && String.eqb op "-"
      then
        if (1 <? len_other)%nat then Raise (AttributeError "datatype")
        else calculateDuration res (dateTimeObjects t)
      else if dt_in dt XSD_DateTime_DTs
              && dt_in (datatype t) XSD_Duration_DTs
      then calculateFinalDateTime res dt (dateTimeObjects t) (datatype t) op
      else if dt_in dt XSD_Duration_DTs
              && dt_in (datatype t) XSD_DateTime_DTs
      then
        if String.eqb op "+"
        then calculateFinalDateTime res dt (dateTimeObjects t) (datatype t) op
        else additive_datetime_loop res dt len_other rest
      else Raise (SPARQLError "Invalid DateTime Operations")
  end.

(** [AdditiveExpression] on a left operand that is a literal of a date,
    time or duration datatype, [other] being present.  The branch of the
    numeric operands is not embedded. *)
Definition AdditiveExpression_datetime {lib : PyLib} {terms : TermLib}
  (expr : Literal) (e_op : list string) (other : list Value) : Result Value :=
  let res := dateTimeObjects expr in
  let dt := datatype expr in
  additive_datetime_loop res dt (List.length other) (combine e_op other).

(** ** Regular expressions *)

Module re.
Definition IGNORECASE : Z := 2.
Definition MULTILINE : Z := 8.
Definition DOTALL : Z := 16.
End re.

(** [flagMap.get(f, 0)] *)
Definition flagMap_get (f : ascii) : Z :=
  if Ascii.eqb f "i" then re.IGNORECASE
  else if Ascii.eqb f "s" then re.DOTALL
  else if Ascii.eqb f "m" then re.MULTILINE
  else 0.

(** [reduce(f, xs)] without an initial value *)
Definition reduce {A} (f : A -> A -> A) (xs : list A) : Result A :=
  match xs with
  | [] => Raise (TypeError "reduce() of empty sequence with no initial value")
  | x :: rest => Ok (fold_left f rest x)
  end.

(** The block guarded by [if flags:]; [flags] is the string of flag
    letters, [None] when the argument is absent. *)
Definition cFlag_of (flags : option string) : Result Z :=
  if truthy flags then
    match flags with
    | Some fs => reduce Z.lor (map flagMap_get (list_ascii_of_string fs))
    | None => Ok 0
    end
  else Ok 0.

Definition Builtin_REGEX {lib : PyLib} (text pattern : Value)
  (flags : option string) : Result Value :=
  let* text := string_ text in
  let* pattern := string_ pattern in
  let* cFlag := cFlag_of flags in
  let* found := re_search (lexical pattern) (lexical text) cFlag in
  Ok (TLiteral (Literal_bool found)).

(** The interpreter is taken to be Python 3.5 or later, so that
    [compat_r] is [str(replacement)]. *)
Definition Builtin_REPLACE {lib : PyLib} {terms : TermLib}
  (arg pattern replacement : Value)
  (flags : option string) : Result Value :=
  let* text := string_ arg in
  let* pattern := string_ pattern in
  let* replacement := string_ replacement in
  let* replacement :=
    re_sub "\$([0-9]*)" "\\\1" (lexical replacement) 0 0 in
  let* cFlag := cFlag_of flags in
  let* s := re_sub (lexical pattern) replacement (lexical text) cFlag 0 in
  let* l := Literal_str s (language text) (datatype text) in
  Ok (TLiteral l).

(** ** Numeric builtins *)

(** An exact rational [num / den] with [den > 0]: the value of a finite
    float or decimal. *)
Record Frac : Type := mkFrac { num : Z; den : Z }.

Definition Frac_of_scaled (c base e : Z) : Frac :=
  if 0 <=? e then mkFrac (c * base ^ e) 1 else mkFrac c (base ^ (- e)).

Definition signed (s : bool) (m : positive) : Z :=
  if s then Z.neg m else Z.pos m.

(** [math.floor] and [math.ceil] of an exact rational *)
Definition Frac_floor (q : Frac) : Z := num q / den q.
Definition Frac_ceil (q : Frac) : Z := - ((- num q) / den q).

(** Rounding to an integer under [ROUND_HALF_UP]: to the nearest integer,
    a tie going away from zero. *)
Definition Frac_round_half_up (q : Frac) : Z :=
  Z.sgn (num q) * ((2 * Z.abs (num q) + den q) / (2 * den q)).

(** The exact value of a Python number, [None] for a NaN or an infinity. *)
Definition Decimal_value (d : Decimal) : option Frac :=
  match d with
  | DFinite c e => Some (Frac_of_scaled c 10 e)
  | _ => None
  end.

Definition float_value (f : spec_float) : option Frac :=
  match f with
  | S754_zero _ => Some (mkFrac 0 1)
  | S754_finite s m e => Some (Frac_of_scaled (signed s m) 2 e)
  | _ => None
  end.

(** [Decimal(f)] for a float: the conversion is exact. *)
Definition Decimal_of_float (f : spec_float) : Decimal :=
  match f with
  | S754_zero _ => DFinite 0 0
  | S754_infinity s => DInf s
  | S754_nan => DNaN
  | S754_finite s m e =>
      if 0 <=? e then DFinite (signed s m * 2 ^ e) 0
      else DFinite (signed s m * 5 ^ (- e)) e
  end.

(** [Decimal(v)] *)
Definition Decimal_new {lib : PyLib} (v : PyObj) : Result Decimal :=
  match v with
  | Native (PyBool b) => Ok (DFinite (if b then 1 else 0) 0)
  | Native (PyInt z) => Ok (DFinite z 0)
  | Native (PyFloat f) => Ok (Decimal_of_float f)
  | Native (PyDec d) => Ok d
  | Native (PyStr s) => Decimal_of_str s
  | Self l => Decimal_of_str (lexical l)
  | Native (PyObject _ _ _) =>
      Raise (TypeError "conversion to Decimal is not supported")
  end.

(** Precision of the default decimal context. *)
Definition prec : Z := 28.

(** [d.quantize(1, ROUND_HALF_UP)]: a NaN stays a NaN, an infinity is an
    invalid operation, and so is a result of more than [prec] digits. *)
Definition quantize_1_ROUND_HALF_UP (d : Decimal) : Result Decimal :=
  match d with
  | DNaN => Ok DNaN
  | DInf _ => Raise InvalidOperation
  | DFinite c e =>
      let r := Frac_round_half_up (Frac_of_scaled c 10 e) in
      if Z.abs r <? 10 ^ prec then Ok (DFinite r 0)
      else Raise InvalidOperation
  end.

(** [int(d)] truncates toward zero. *)
Definition int_of_Decimal (d : Decimal) : Result Z :=
  match d with
  | DNaN => Raise (ValueError "cannot convert NaN to integer")
  | DInf _ => Raise OverflowError
  | DFinite c e =>
      let q := Frac_of_scaled c 10 e in
      Ok (Z.quot (num q) (den q))
  end.

(** [math.floor(v)] and [math.ceil(v)], by [round_to] on the exact value *)
Definition math_round (round_to : Frac -> Z) (v : PyObj) : Result Z :=
  match v with
  | Native (PyBool b) => Ok (if b then 1 else 0)
  | Native (PyInt z) => Ok z
  | Native (PyFloat f) =>
      match f with
      | S754_nan => Raise (ValueError "cannot convert float NaN to integer")
      | S754_infinity _ => Raise OverflowError
      | _ => match float_value f with
             | Some q => Ok (round_to q)
             | None => Raise OverflowError
             end
      end
  | Native (PyDec d) =>
      match d with
      | DNaN => Raise (ValueError "cannot convert NaN to integer")
      | DInf _ => Raise OverflowError
      | DFinite c e => Ok (round_to (Frac_of_scaled c 10 e))
      end
  | Native (PyStr _) | Native (PyObject _ _ _) | Self _ =>
      Raise (TypeError "must be real number")
  end.

Definition math_ceil : PyObj -> Result Z := math_round Frac_ceil.
Definition math_floor : PyObj -> Result Z := math_round Frac_floor.

(** [abs(v)] *)
Definition py_abs {lib : PyLib} (v : PyObj) : Result PyValue :=
  match v with
  | Native (PyBool b) => Ok (PyInt (if b then 1 else 0))
  | Native (PyInt z) => Ok (PyInt (Z.abs z))
  | Native (PyFloat f) => Ok (PyFloat (SFabs f))
  | Native (PyDec d) => let* a := Decimal_abs d in Ok (PyDec a)
  | Native (PyStr _) | Native (PyObject _ _ _) | Self _ =>
      Raise (TypeError "bad operand type for abs()")
  end.

(** [l_.datatype] for an argument slot [l_] *)
Definition datatype_of (l_ : Value) : Result (option URIRef) :=
  match l_ with
  | TLiteral l => Ok (datatype l)
  | _ => Raise (AttributeError "datatype")
  end.

Definition Builtin_ABS {lib : PyLib} {terms : TermLib} (arg : Value)
  : Result Value :=
  let* v := numeric arg in
  let* a := py_abs v in
  Ok (TLiteral (Literal_of a None)).

Definition Builtin_CEIL (arg : Value) : Result Value :=
  let l_ := arg in
  let* v := numeric l_ in
  let* z := math_ceil v in
  let* dt := datatype_of l_ in
  Ok (TLiteral (Literal_int z dt)).

Definition Builtin_FLOOR (arg : Value) : Result Value :=
  let l_ := arg in
  let* v := numeric l_ in
  let* z := math_floor v in
  let* dt := datatype_of l_ in
  Ok (TLiteral (Literal_int z dt)).

Definition Builtin_ROUND {lib : PyLib} (arg : Value) : Result Value :=
  let l_ := arg in
  let* v := numeric l_ in
  let* d := Decimal_new v in
  let* q := quantize_1_ROUND_HALF_UP d in
  let* v := int_of_Decimal q in
  let* dt := datatype_of l_ in
  Ok (TLiteral (Literal_int v dt)).

(** ** Expression trees and the simplifier *)

(** What the parser hands to [simplify]: a [CompValue] (an ordered
    dictionary of named slots with a [name]), a Python list, a
    [ParseResults] sequence, or any other object (a term, [None], ...). *)
#[local] Unset Elimination Schemes.
Inductive Expr : Type :=
| Atom (v : Value)
| PyList (items : list Expr)
| ParseResults (items : list Expr)
| CompValue (name : string) (slots : list (string * Expr)).
#[local] Set Elimination Schemes.

Definition is_None (e : Expr) : bool :=
  match e with
  | Atom TNone => true
  | _ => false
  end.

(** [expr.a]: the slot [a], or [None] when there is no such slot. *)
Fixpoint getattr (slots : list (string * Expr)) (a : string) : Expr :=
  match slots with
  | [] => Atom TNone
  | (k, v) :: rest => if String.eqb k a then v else getattr rest a
  end.

(** [simplify] rewrites the slots of a node in place and returns the
    node; on a tree, where no node is shared, that is the function from
    a tree to the value of the result.  The inner [fix] is
    [simplify(expr.expr)]: the simplification of the slot [expr], [None]
    when the node has none. *)
Fixpoint simplify (expr : Expr) : Expr :=
  match expr with
  | ParseResults [x] => simplify x
  | ParseResults items => PyList (map simplify items)
  | PyList items => PyList (map simplify items)
  | Atom v => Atom v
  | CompValue name slots =>
      if Str.endswith name "Expression" && is_None (getattr slots "other")
      then
        (fix simplify_expr (l : list (string * Expr)) : Expr :=
           match l with
           | [] => Atom TNone
           | (k, v) :: rest =>
               if String.eqb k "expr" then simplify v else simplify_expr rest
           end) slots
      else CompValue name (map (fun kv => (kv.1, simplify kv.2)) slots)
  end.

(** ** Custom function registry *)

(** An argument handed to a registered callable: a term of the argument
    list, or the expression node and the context of a raw call. *)
Record FunctionNode : Type := mkFunctionNode {
  iri : URIRef;
  expr : list Value
}.

Definition Context : Type := gmap string Value.

Inductive PyArg : Type :=
| ArgValue (v : Value)
| ArgNode (e : FunctionNode)
| ArgContext (ctx : Context).

(** A Python callable, applied to its positional arguments. *)
Abbreviation Callable := (list PyArg -> Result Value).

(** The module-level dictionary [_CUSTOM_FUNCTIONS] is threaded through
    the functions that read or write it. *)
Definition register_custom_function
  (_CUSTOM_FUNCTIONS : gmap string (Callable * bool))
  (uri : URIRef) (func : Callable) (override raw : bool)
  : Result (gmap string (Callable * bool)) :=
  if negb override && bool_decide (is_Some (_CUSTOM_FUNCTIONS !! uri))
  then Raise (ValueError "A function is already registered")
  else Ok (<[uri := (func, raw)]> _CUSTOM_FUNCTIONS).

Definition Function (_CUSTOM_FUNCTIONS : gmap string (Callable * bool))
  (e : FunctionNode) (ctx : Context) : Result Value :=
  match _CUSTOM_FUNCTIONS !! (iri e) with
  | None => Raise (SPARQLError "Unknown function")
  | Some (func, raw) =>
      if raw : bool then func [ArgNode e; ArgContext ctx]
      else match func (map ArgValue (expr e)) with
           | Raise (TypeError args) => Raise (SPARQLError args)
           | r => r
           end
  end.

(** ** String builtins *)

Definition _compatibleStrings (a b : Value) : Result unit :=
  let* la := string_ a in
  let* lb := string_ b in
  if truthy (language lb)
     && negb (bool_decide (language la = language lb))
  then Raise (SPARQLError "incompatible arguments to str functions")
  else Ok tt.

(** After [_compatibleStrings] both arguments are literals; [string_]
    only hands them over. *)
Definition Builtin_STRBEFORE {terms : TermLib} (arg1 arg2 : Value)
  : Result Value :=
  let* _ := _compatibleStrings arg1 arg2 in
  let* a := string_ arg1 in
  let* b := string_ arg2 in
  let i := Str.find (lexical a) (lexical b) in
  if i =? -1 then
    let* l := Literal_str "" None None in
    Ok (TLiteral l)
  else
    let* l := Literal_str (Str.slice_to (lexical a) i)
                (language a) (datatype a) in
    Ok (TLiteral l).

Definition Builtin_STRAFTER {terms : TermLib} (arg1 arg2 : Value)
  : Result Value :=
  let* _ := _compatibleStrings arg1 arg2 in
  let* a := string_ arg1 in
  let* b := string_ arg2 in
  let i := Str.find (lexical a) (lexical b) in
  if i =? -1 then
    let* l := Literal_str "" None None in
    Ok (TLiteral l)
  else
    let* l := Literal_str (Str.slice_from (lexical a) (i + Str.len (lexical b)))
                (language a) (datatype a) in
    Ok (TLiteral l).

(** ** Specifications in the words of the claims, and sample inputs *)

(** Outcome of the membership scan described from its results: whether
    some element compares equal, and the errors raised by the
    comparisons, in the order of the list. *)
Definition compares_equal (eq : Value -> Value -> Result bool)
  (expr x : Value) : bool :=
  match eq x expr with
  | Ok true => true
  | _ => false
  end.

Fixpoint comparison_errors (eq : Value -> Value -> Result bool)
  (expr : Value) (l : list Value) : list Exn :=
  match l with
  | [] => []
  | x :: rest =>
      match eq x expr with
      | Raise e => e :: comparison_errors eq expr rest
      | Ok _ => comparison_errors eq expr rest
      end
  end.

(** Every exception a comparison raises is a [SPARQLError]; when the
    list of the errors is empty no comparison raises. *)
Definition only_SPARQLErrors (eq : Value -> Value -> Result bool)
  (expr : Value) (l : list Value) : bool :=
  forallb is_SPARQLError (comparison_errors eq expr l).

Definition is_NOT_IN (op : MembershipOp) : bool :=
  match op with
  | NOT_IN => true
  | IN => false
  end.

Definition elements (other : ExpressionList) : list Value :=
  match other with
  | NIL => []
  | Items l => l
  end.

(** The operand's EBV is true, false, or an error. *)
Definition EBV_true (x : Value) : Prop :=
  exists b, EBV x = Ok b /\ truth b = true.
Definition EBV_false (x : Value) : Prop :=
  exists b, EBV x = Ok b /\ truth b = false.

Definition typed (lex : string) (dt : URIRef) (v : PyValue) : Literal :=
  {| lexical := lex; language := None; datatype := Some dt; value := Some v |}.

Definition plain (lex : string) : Literal :=
  {| lexical := lex; language := None; datatype := None;
     value := Some (PyStr lex) |}.

Definition NaN_double : Literal := typed "NaN" XSD.double (PyFloat S754_nan).
Definition five : Literal := typed "5" XSD.integer (PyInt 5).
Definition six : Literal := typed "6" XSD.integer (PyInt 6).
Definition new_year : Literal :=
  typed "2020-01-01T00:00:00" XSD.dateTime
    (PyObject "datetime" "2020-01-01 00:00:00" true).
Definition error1 : Exn := SPARQLError "first".

(** An environment without the libraries: every call into them fails, or
    returns an empty rendering.  An operator evaluated in it on an input
    that never reaches the libraries yields what it yields with them. *)
Definition no_PyLib : PyLib :=
  {| str_float := fun _ => "";
     str_Decimal := fun _ => "";
     Decimal_of_str := fun _ => Raise InvalidOperation;
     Decimal_abs := fun _ => Raise InvalidOperation;
     re_sub := fun _ _ _ _ _ => Raise (ValueError "re");
     re_search := fun _ _ _ => Raise (ValueError "re");
     py_add := fun _ _ => Raise (TypeError "unsupported operand type(s)");
     py_sub := fun _ _ => Raise (TypeError "unsupported operand type(s)") |}.

(** A term model that converts the lexical forms of strings only. *)
Definition string_TermLib : TermLib :=
  {| _castLexicalToPython := fun s dt =>
       if negb (is_Some_b dt) || dt_is dt XSD.string
       then Some (PyStr s) else None;
     object_lexical := fun _ repr => repr;
     object_datatype := fun _ => None |}.

Definition date_literal : Literal :=
  typed "2020-01-01" XSD.date (PyObject "date" "2020-01-01" true).
Definition time_literal : Literal :=
  typed "10:00:00" XSD.time (PyObject "time" "10:00:00" true).
Definition P1D_duration : Literal :=
  typed "P1D" XSD.duration (PyObject "timedelta" "1 day, 0:00:00" true).
Definition P1D_dayTimeDuration : Literal :=
  typed "P1D" XSD.dayTimeDuration (PyObject "timedelta" "1 day, 0:00:00" true).
Definition P1Y_yearMonthDuration : Literal :=
  typed "P1Y" XSD.yearMonthDuration
    (PyObject "Duration" "1 years, 0:00:00" true).

(** The exact value of what [numeric] returned, when that is a finite
    number. *)
Definition exact_value (v : PyObj) : option Frac :=
  match v with
  | Native (PyBool b) => Some (mkFrac (if b then 1 else 0) 1)
  | Native (PyInt z) => Some (mkFrac z 1)
  | Native (PyFloat f) => float_value f
  | Native (PyDec d) => Decimal_value d
  | _ => None
  end.

(** [z] is an integer nearest to [q], and when [q] lies halfway between
    two integers [z] is the one of larger magnitude. *)
Definition nearest_half_away (q : Frac) (z : Z) : Prop :=
  2 * Z.abs (num q - z * den q) <= den q
  /\ (2 * Z.abs (num q - z * den q) = den q ->
      Z.abs (num q) < Z.abs z * den q).

Definition ten_to_28 : Literal :=
  typed "10000000000000000000000000000" XSD.integer (PyInt (10 ^ 28)).
Definition minus_five_byte : Literal := typed "-5" XSD.byte (PyInt (-5)).
Definition decimal_2_5 : Literal :=
  typed "2.5" XSD.decimal (PyDec (DFinite 25 (-1))).
Definition decimal_minus_2_5 : Literal :=
  typed "-2.5" XSD.decimal (PyDec (DFinite (-25) (-1))).
Definition decimal_2_4 : Literal :=
  typed "2.4" XSD.decimal (PyDec (DFinite 24 (-1))).
(** The doubles 2.5 = 5 * 2^-1 and 2.4, the latter as the nearest double,
    5404319552844595 * 2^-51. *)
Definition double_2_5 : Literal :=
  typed "2.5" XSD.double (PyFloat (S754_finite false 5 (-1))).
Definition double_minus_2_5 : Literal :=
  typed "-2.5" XSD.double (PyFloat (S754_finite true 5 (-1))).
Definition double_2_4 : Literal :=
  typed "2.4" XSD.double (PyFloat (S754_finite false 5404319552844595 (-51))).

(** A chain node: a [CompValue] whose name ends in "Expression". *)
Definition is_chain (name : string) : bool := Str.endswith name "Expression".

(** No chain node of the tree has a continuation slot [other] that holds
    something and yet simplifies to [None]. *)
Fixpoint continuations_kept (e : Expr) : bool :=
  match e with
  | Atom _ => true
  | PyList items => forallb continuations_kept items
  | ParseResults items => forallb continuations_kept items
  | CompValue name slots =>
      (negb (is_chain name)
       || is_None (getattr slots "other")
       || negb (is_None (simplify (getattr slots "other"))))
      && forallb (fun kv => continuations_kept kv.2) slots
  end.

(** A sequence of operands, as the grammar builds the continuation of a
    chain node; [continuations_are_sequences] asks it of every
    continuation slot that holds something. *)
Definition is_sequence (e : Expr) : bool :=
  match e with
  | PyList _ => true
  | ParseResults items => negb (Nat.eqb (List.length items) 1)
  | _ => false
  end.

Fixpoint continuations_are_sequences (e : Expr) : bool :=
  match e with
  | Atom _ => true
  | PyList items => forallb continuations_are_sequences items
  | ParseResults items => forallb continuations_are_sequences items
  | CompValue name slots =>
      (negb (is_chain name)
       || is_None (getattr slots "other")
       || is_sequence (getattr slots "other"))
      && forallb (fun kv => continuations_are_sequences kv.2) slots
  end.

(** The node has a slot [a]. *)
Definition has_slot (slots : list (string * Expr)) (a : string) : bool :=
  existsb (fun kv => String.eqb kv.1 a) slots.

(** The expression trees of the claim, as the grammar and [and_] build
    them: every chain node has its operand, the slot [expr], and nothing
    in the tree is [None] (an absent slot is no slot of the node). *)
Fixpoint well_built (e : Expr) : bool :=
  match e with
  | Atom v => negb (is_None (Atom v))
  | PyList items => forallb well_built items
  | ParseResults items => forallb well_built items
  | CompValue name slots =>
      (negb (is_chain name) || has_slot slots "expr")
      && forallb (fun kv => well_built kv.2) slots
  end.

Definition or_node (operand continuation : Expr) : Expr :=
  CompValue "ConditionalOrExpression"
    [("expr", operand); ("other", continuation)].

(** A disjunction whose continuation is a conjunction node without its
    operand, which no parse builds. *)
Definition dangling_or : Expr :=
  or_node (Atom (TLiteral five)) (CompValue "ConditionalAndExpression" []).

(** [?x || ?y], each operand wrapped as the grammar wraps it. *)
Definition wrapped_or : Expr :=
  or_node
    (CompValue "ConditionalAndExpression" [("expr", Atom (TVariable "x"))])
    (PyList
       [CompValue "ConditionalAndExpression" [("expr", Atom (TVariable "y"))]]).

(** What dispatching to the binding [(func, raw)] amounts to: a raw
    function gets the node and the context, another one the argument
    list, a [TypeError] of the call becoming a [SPARQLError]. *)
Definition dispatch (func : Callable) (raw : bool) (e : FunctionNode)
  (ctx : Context) : Result Value :=
  if raw then func [ArgNode e; ArgContext ctx]
  else match func (map ArgValue (expr e)) with
       | Raise (TypeError args) => Raise (SPARQLError args)
       | r => r
       end.

Definition example_iri : URIRef := "http://example.org/f".
Definition always (v : Value) : Callable := fun _ => Ok v.
Definition one_binding : gmap string (Callable * bool) :=
  {[ example_iri := (always (TLiteral five), false) ]}.

(** [b] occurs in [a]. *)
Definition occurs (b a : string) : Prop :=
  exists pre post, a = (pre ++ b ++ post)%string.

(** The invariant of the term model: at most one of language and
    datatype, and no empty language tag. *)
Definition well_formed (l : Literal) : bool :=
  negb (is_Some_b (language l) && is_Some_b (datatype l))
  && negb (bool_decide (language l = Some "")).

Definition abc_en : Literal :=
  {| lexical := "abc"; language := Some "en"; datatype := None;
     value := Some (PyStr "abc") |}.

(** The literal the cast to [xsd:string] builds from ["abc"@en]:
    [Literal(x, datatype=XSD.string)] for a literal [x] keeps the
    language of [x] beside the new datatype. *)
Definition abc_en_string : Literal :=
  {| lexical := "abc"; language := Some "en"; datatype := Some XSD.string;
     value := Some (PyStr "abc") |}.

(** The library with the flags of every substitution forced to 0. *)
Definition without_sub_flags (lib : PyLib) : PyLib :=
  {| str_float := str_float;
     str_Decimal := str_Decimal;
     Decimal_of_str := Decimal_of_str;
     Decimal_abs := Decimal_abs;
     re_sub := fun pattern repl s count _ => re_sub pattern repl s count 0;
     re_search := re_search;
     py_add := py_add;
     py_sub := py_sub |}.

(** * Further operators of the module *)

(** ** More of Python's strings

    A character is a code point below 256; on these [str.lower] changes
    the letters A-Z and the capital letters of Latin-1, and [str.isspace]
    holds of the twelve characters below. *)

Definition isspace (c : ascii) : bool :=
  let n := nat_of_ascii c in
  ((9 <=? n) && (n <=? 13) || (28 <=? n) && (n <=? 32)
   || (n =? 133) || (n =? 160))%nat.

Definition lower_char (c : ascii) : ascii :=
  let n := nat_of_ascii c in
  if ((65 <=? n) && (n <=? 90)
      || (192 <=? n) && (n <=? 222) && negb (n =? 215))%nat
  then ascii_of_nat (n + 32) else c.

(** [s.lower()] *)
Fixpoint lower (s : string) : string :=
  match s with
  | EmptyString => EmptyString
  | String c rest => String (lower_char c) (lower rest)
  end.

Fixpoint lstrip (s : string) : string :=
  match s with
  | EmptyString => EmptyString
  | String c rest => if isspace c then lstrip rest else s
  end.

Fixpoint rstrip (s : string) : string :=
  match s with
  | EmptyString => EmptyString
  | String c rest =>
      match rstrip rest with
      | EmptyString => if isspace c then EmptyString else String c EmptyString
      | kept => String c kept
      end
  end.

(** [s.strip()] *)
Definition strip (s : string) : string := rstrip (lstrip s).

(** [s.split(sep)] for a separator of one character: never empty. *)
Fixpoint split (sep : ascii) (s : string) : list string :=
  match s with
  | EmptyString => [EmptyString]
  | String c rest =>
      if Ascii.eqb c sep then EmptyString :: split sep rest
      else match split sep rest with
           | first :: others => String c first :: others
           | [] => [String c EmptyString]
           end
  end.

(** [b in a] *)
Fixpoint contains (a b : string) : bool :=
  Str.startswith a b
  || match a with
     | EmptyString => false
     | String _ rest => contains rest b
     end.

(** [a[start:stop]], [stop] being [None] or an index *)
Definition slice (a : string) (start : Z) (stop : option Z) : string :=
  let j := match stop with
           | None => String.length a
           | Some j => Str.clamp a j
           end in
  Str.drop (Str.clamp a start) (Str.take j a).

(** [str(arg)] for what a slot holds; an error object is not rendered. *)
Definition str_of (arg : Value) : option string :=
  match arg with
  | TURIRef u => Some u
  | TBNode id => Some id
  | TLiteral l => Some (lexical l)
  | TVariable name => Some name
  | TNone => Some "None"
  | TError _ => None
  end.

(** A loop that applies [f] to the elements in order and stops at the
    first exception. *)
Fixpoint mapM {A B} (f : A -> Result B) (xs : list A) : Result (list B) :=
  match xs with
  | [] => Ok []
  | x :: rest =>
      let* y := f x in
      let* ys := mapM f rest in
      Ok (y :: ys)
  end.

(** ** Term tests *)

Definition Builtin_isBLANK (arg : Value) : Result Value :=
  Ok (TLiteral (Literal_bool
                  match arg with TBNode _ => true | _ => false end)).

Definition Builtin_isLITERAL (arg : Value) : Result Value :=
  Ok (TLiteral (Literal_bool
                  match arg with TLiteral _ => true | _ => false end)).

Definition Builtin_isIRI (arg : Value) : Result Value :=
  Ok (TLiteral (Literal_bool
                  match arg with TURIRef _ => true | _ => false end)).

(** [try: numeric(expr.arg) ... except: ...]: the bare handler catches
    every exception. *)
Definition Builtin_isNUMERIC (arg : Value) : Result Value :=
  match numeric arg with
  | Ok _ => Ok (TLiteral (Literal_bool true))
  | Raise _ => Ok (TLiteral (Literal_bool false))
  end.

Definition Builtin_BOUND (n : Value) : Result Value :=
  Ok (TLiteral (Literal_bool
                  match n with TVariable _ => false | _ => true end)).

(** ** Logical builtins *)

Definition Builtin_IF (arg1 arg2 arg3 : Value) : Result Value :=
  let* b := EBV arg1 in
  Ok (if truth b then arg2 else arg3).

Definition UnaryNot (expr : Value) : Result Value :=
  let* b := EBV expr in
  Ok (TLiteral (Literal_bool (negb (truth b)))).

(** An argument [COALESCE] passes over: [None], an unbound variable or a
    [SPARQLError] object. *)
Definition passed_over (x : Value) : bool :=
  match x with
  | TNone => true
  | TVariable _ => true
  | TError e => is_SPARQLError e
  | _ => false
  end.

(** [arg] is the list of the evaluated arguments of a call that has
    some; a call without arguments hands over [RDF.nil], an IRI, in
    place of a list, and is not a case of this function of lists. *)
Fixpoint Builtin_COALESCE (arg : list Value) : Result Value :=
  match arg with
  | [] =>
      Raise (SPARQLError
               "COALESCE got no arguments that did not evaluate to an error")
  | x :: rest => if passed_over x then Builtin_COALESCE rest else Ok x
  end.

(** ** Strings, languages and datatypes *)

Definition literal (s : Value) : Result Literal :=
  match s with
  | TLiteral l => Ok l
  | _ => Raise (SPARQLError "Non-literal passed as string")
  end.

Definition RDF_langString : URIRef := RDF.uri ++ "langString".

(** An error object in the slot is raised; it is a [SPARQLError], the
    only exceptions the evaluation of a sub-expression returns. *)
Definition Builtin_STR {terms : TermLib} (arg : Value) : Result Value :=
  match arg, str_of arg with
  | TError e, _ => Raise e
  | _, Some s => let* l := Literal_str s None None in Ok (TLiteral l)
  | _, None => Raise (TypeError "str")
  end.

Definition Builtin_LANG {terms : TermLib} (arg : Value) : Result Value :=
  let* l_ := literal arg in
  let* l := Literal_str
              (if truthy (language l_) then default "" (language l_) else "")
              None None in
  Ok (TLiteral l).

Definition Builtin_DATATYPE (arg : Value) : Result Value :=
  match arg with
  | TLiteral l_ =>
      if truthy (language l_) then Ok (TURIRef RDF_langString)
      else if negb (truthy (datatype l_)) && negb (truthy (language l_))
      then Ok (TURIRef XSD.string)
      else match datatype l_ with
           | Some d => Ok (TURIRef d)
           | None => Ok TNone
           end
  | _ => Raise (SPARQLError "Can only get datatype of literal")
  end.

(** [arg2_str] is [str(expr.arg2)]. *)
Definition Builtin_STRLANG {terms : TermLib} (arg1 : Value)
  (arg2_str : string) : Result Value :=
  let* s := string_ arg1 in
  if truthy (language s) || truthy (datatype s)
  then Raise (SPARQLError "STRLANG expects a simple literal")
  else
    let* l := Literal_str (lexical s) (Some (lower arg2_str)) None in
    Ok (TLiteral l).

(** [arg1_str] is [str(expr.arg1)]. *)
Definition Builtin_STRDT {terms : TermLib} (arg1_str : string)
  (arg2 : URIRef) : Result Value :=
  let* l := Literal_str arg1_str None (Some arg2) in
  Ok (TLiteral l).

Definition Builtin_LCASE {terms : TermLib} (arg : Value) : Result Value :=
  let* l_ := string_ arg in
  let* l := Literal_str (lower (lexical l_)) (language l_) (datatype l_) in
  Ok (TLiteral l).

Definition Builtin_STRLEN (arg : Value) : Result Value :=
  let* l_ := string_ arg in
  Ok (TLiteral (Literal_int (Str.len (lexical l_)) None)).

Definition Builtin_STRSTARTS (arg1 arg2 : Value) : Result Value :=
  let* _ := _compatibleStrings arg1 arg2 in
  let* a := string_ arg1 in
  let* b := string_ arg2 in
  Ok (TLiteral (Literal_bool (Str.startswith (lexical a) (lexical b)))).

Definition Builtin_STRENDS (arg1 arg2 : Value) : Result Value :=
  let* _ := _compatibleStrings arg1 arg2 in
  let* a := string_ arg1 in
  let* b := string_ arg2 in
  Ok (TLiteral (Literal_bool (Str.endswith (lexical a) (lexical b)))).

Definition Builtin_CONTAINS (arg1 arg2 : Value) : Result Value :=
  let* _ := _compatibleStrings arg1 arg2 in
  let* a := string_ arg1 in
  let* b := string_ arg2 in
  Ok (TLiteral (Literal_bool (contains (lexical a) (lexical b)))).

(** A Python [int]: an [int] or a [bool]. *)
Definition as_int (v : PyValue) : option Z :=
  match v with
  | PyInt z => Some z
  | PyBool b => Some (if b then 1 else 0)
  | _ => None
  end.

(** [v - 1] and [v + w]: on integers the arithmetic of the language,
    otherwise that of the library. *)
Definition minus_one {lib : PyLib} (v : PyObj) : Result PyValue :=
  match v with
  | Native n =>
      match as_int n with
      | Some z => Ok (PyInt (z - 1))
      | None => py_sub v (Native (PyInt 1))
      end
  | Self _ => py_sub v (Native (PyInt 1))
  end.

Definition add_objects {lib : PyLib} (v : PyObj) (w : PyValue) : Result PyValue :=
  match v with
  | Native n =>
      match as_int n, as_int w with
      | Some a, Some b => Ok (PyInt (a + b))
      | _, _ => py_add v (Native w)
      end
  | Self _ => py_add v (Native w)
  end.

(** An index of a slice is an integer. *)
Definition slice_index (v : PyValue) : Result Z :=
  match as_int v with
  | Some z => Ok z
  | None => Raise (TypeError "slice indices must be integers")
  end.

(** [length] is [TNone] when the argument is absent. *)
Definition Builtin_SUBSTR {lib : PyLib} {terms : TermLib}
  (arg start length : Value) : Result Value :=
  let* a := string_ arg in
  let* s := numeric start in
  let* start := minus_one s in
  let* length :=
    match length with
    | TNone => Ok None
    | _ => let* n := numeric length in
           let* stop := add_objects n start in
           Ok (Some stop)
    end in
  let* i := slice_index start in
  let* j := match length with
            | None => Ok None
            | Some stop => let* j := slice_index stop in Ok (Some j)
            end in
  let* l := Literal_str (slice (lexical a) i j) (language a) (datatype a) in
  Ok (TLiteral l).

(** [s.pop() if len(s) == 1 else None] for a set of slots *)
Definition pop_if_single (s : gset (option string)) : option string :=
  if (size s =? 1)%nat then List.hd None (base.elements s) else None.

(** [arg] is the list of the evaluated arguments of a call that has
    some; as for [COALESCE], a call without arguments hands over
    [RDF.nil] and is not a case of this function of lists. *)
Definition Builtin_CONCAT {terms : TermLib} (arg : list Value)
  : Result Value :=
  let* ls := mapM literal_of arg in
  let dt := pop_if_single (list_to_set (map datatype ls)) in
  let lang := pop_if_single (list_to_set (map language ls)) in
  let* parts := mapM string_ arg in
  let* l := Literal_str (String.concat "" (map lexical parts)) lang dt in
  Ok (TLiteral l).

(** ** Percent-encoding *)

(** [s.encode("utf-8")] on code points below 256 *)
Definition utf8_char (c : ascii) : list ascii :=
  let n := nat_of_ascii c in
  if (n <? 128)%nat then [c]
  else [ascii_of_nat (192 + n / 64); ascii_of_nat (128 + n mod 64)].

Definition utf8 (s : string) : list ascii :=
  List.concat (map utf8_char (list_ascii_of_string s)).

(** The bytes [urllib.parse.quote] never encodes (Python 3.7 or later),
    and its default [safe="/"]. *)
Definition always_safe (c : ascii) : bool :=
  let n := nat_of_ascii c in
  ((48 <=? n) && (n <=? 57) || (65 <=? n) && (n <=? 90)
   || (97 <=? n) && (n <=? 122)
   || (n =? 95) || (n =? 46) || (n =? 45) || (n =? 126))%nat.

Definition hex_digit (n : nat) : ascii :=
  if (n <? 10)%nat then ascii_of_nat (48 + n) else ascii_of_nat (55 + n).

Definition quote_byte (c : ascii) : string :=
  if always_safe c || Ascii.eqb c "/" then String c EmptyString
  else
    let n := nat_of_ascii c in
    String "%" (String (hex_digit (n / 16))
                  (String (hex_digit (n mod 16)) EmptyString)).

Definition quote (bs : list ascii) : string :=
  String.concat "" (map quote_byte bs).

Definition Builtin_ENCODE_FOR_URI {terms : TermLib} (arg : Value)
  : Result Value :=
  let* s := string_ arg in
  let* l := Literal_str (quote (utf8 (lexical s))) None None in
  Ok (TLiteral l).

(** ** Language ranges *)

Definition _match (r l_ : string) : bool :=
  String.eqb r "*" || String.eqb r l_.

Definition _lang_range_check (range lang : string) : bool :=
  let rangeList := split "-" (lower (strip range)) in
  let langList := split "-" (lower (strip lang)) in
  if negb (_match (List.hd "" rangeList) (List.hd "" langList)) then false
  else if (List.length langList <? List.length rangeList)%nat then false
  else forallb (fun x => _match x.1 x.2) (combine rangeList langList).

Definition Builtin_LANGMATCHES (arg1 arg2 : Value) : Result Value :=
  let* langTag := string_ arg1 in
  let* langRange := string_ arg2 in
  if String.eqb (lexical langTag) ""
  then Ok (TLiteral (Literal_bool false))
  else Ok (TLiteral (Literal_bool
                       (_lang_range_check (lexical langRange)
                          (lexical langTag)))).

(** ** Casts *)

(** The conversions a cast relies on: the set [XSD_DTs] of
    rdflib.plugins.sparql.datatypes, [isodate.parse_datetime], [float]
    and [int] applied to a string ([None] when they raise), and the term
    constructor applied to a term, [Literal(x, datatype=dt)]. *)
Class CastLib : Type := {
  XSD_DTs : list URIRef;
  parse_datetime : string -> option PyValue;
  float_of_str : string -> option spec_float;
  int_of_str : string -> option Z;
  Literal_of_term : Value -> URIRef -> Result Literal
}.

Definition default_cast {lib : PyLib} {terms : TermLib} {casts : CastLib}
  (e : FunctionNode) : Result Value :=
  match expr e with
  | [] => Raise (SPARQLError "Nothing given to cast.")
  | _ :: _ :: _ => Raise (SPARQLError "Cannot cast more than one thing!")
  | [x] =>
      if String.eqb (iri e) XSD.string then
        match x with
        | TURIRef _ | TLiteral _ =>
            let* l := Literal_of_term x XSD.string in Ok (TLiteral l)
        | _ => Raise (SPARQLError "Cannot cast term")
        end
      else
        match x with
        | TLiteral x =>
            if truthy (datatype x) && negb (dt_in (datatype x) XSD_DTs)
            then Raise (SPARQLError
                          "Cannot cast literal with unknown datatype")
            else if String.eqb (iri e) XSD.dateTime then
              if truthy (datatype x)
                 && negb (dt_in (datatype x) [XSD.dateTime; XSD.string])
              then Raise (SPARQLError "Cannot cast to XSD:dateTime")
              else match parse_datetime (lexical x) with
                   | Some v => Ok (TLiteral (Literal_of v (Some (iri e))))
                   | None =>
                       Raise (SPARQLError "Cannot interpret as datetime")
                   end
            else if dt_is (datatype x) XSD.dateTime
            then Raise (SPARQLError "Cannot cast XSD.dateTime")
            else if String.eqb (iri e) XSD.float
                    || String.eqb (iri e) XSD.double then
              match float_of_str (lexical x) with
              | Some f =>
                  Ok (TLiteral (Literal_of (PyFloat f) (Some (iri e))))
              | None => Raise (SPARQLError "Cannot interpret as float")
              end
            else if String.eqb (iri e) XSD.decimal then
              if Str.contains_char "e" (lexical x)
                 || Str.contains_char "E" (lexical x)
              then Raise (SPARQLError "Cannot interpret as decimal")
              else match Decimal_of_str (lexical x) with
                   | Ok d =>
                       Ok (TLiteral (Literal_of (PyDec d) (Some (iri e))))
                   | Raise _ =>
                       Raise (SPARQLError "Cannot interpret as decimal")
                   end
            else if String.eqb (iri e) XSD.integer then
              match int_of_str (lexical x) with
              | Some z => Ok (TLiteral (Literal_int z (Some XSD.integer)))
              | None => Raise (SPARQLError "Cannot interpret as int")
              end
            else if String.eqb (iri e) XSD.boolean then
              if String.eqb (lower (lexical x)) "1"
                 || String.eqb (lower (lexical x)) "true"
              then Ok (TLiteral (Literal_bool true))
              else if String.eqb (lower (lexical x)) "0"
                      || String.eqb (lower (lexical x)) "false"
              then Ok (TLiteral (Literal_bool false))
              else Raise (SPARQLError "Cannot interpret as bool")
            else Ok TNone
        | _ =>
            Raise (SPARQLError
                     "Can only cast Literals to non-string data-types")
        end
  end.

(** [default_cast] as a callable: it takes the node and the context. *)
Definition default_cast_callable {lib : PyLib} {terms : TermLib}
  {casts : CastLib} : Callable :=
  fun args =>
    match args with
    | [ArgNode e; ArgContext _] => default_cast e
    | _ => Raise (TypeError "default_cast() takes 2 positional arguments")
    end.

(** The datatypes [default_cast] is registered for, in the order in which
    the decorators run (the innermost first). *)
Definition cast_IRIs : list URIRef :=
  [XSD.boolean; XSD.integer; XSD.decimal; XSD.double; XSD.float;
   XSD.dateTime; XSD.string].

(** The decorators [@custom_function(uri, raw=True)], run from the empty
    dictionary. *)
Fixpoint register_casts {lib : PyLib} {terms : TermLib} {casts : CastLib}
  (uris : list URIRef) (registry : gmap string (Callable * bool))
  : Result (gmap string (Callable * bool)) :=
  match uris with
  | [] => Ok registry
  | uri :: rest =>
      let* registry :=
        register_custom_function registry uri default_cast_callable
          false true in
      register_casts rest registry
  end.

(** ** Building expressions *)

Definition not_ (arg : Expr) : Expr :=
  CompValue "UnaryNot" [("expr", arg)].

Definition and_ (args : list Expr) : Result Expr :=
  match args with
  | [] => Raise IndexError
  | [x] => Ok x
  | x :: rest =>
      Ok (CompValue "ConditionalAndExpression"
            [("expr", x); ("other", PyList rest)])
  end.

(** ** Specifications and sample inputs for the further operators *)

(** The errors the EBV of the operands raises, in order. *)
Fixpoint EBV_errors (xs : list Value) : list Exn :=
  match xs with
  | [] => []
  | x :: rest =>
      match EBV x with
      | Raise e => e :: EBV_errors rest
      | Ok _ => EBV_errors rest
      end
  end.

Definition EBV_is_true (x : Value) : bool :=
  match EBV x with
  | Ok b => truth b
  | Raise _ => false
  end.

(** A range of subtags matches a tag: the tag has at least as many
    subtags, and each subtag of the range is the wildcard or the subtag
    of the tag at its place. *)
Fixpoint subtags_match (rs ls : list string) : Prop :=
  match rs, ls with
  | [], _ => True
  | r :: rs', l :: ls' => (r = "*" \/ r = l) /\ subtags_match rs' ls'
  | _ :: _, [] => False
  end.

(** A string literal that [string()] accepts and that has no empty
    datatype. *)
Definition is_string_literal (l : Literal) : bool :=
  negb (truthy (datatype l) && negb (dt_is (datatype l) XSD.string)).

(** The characters [ENCODE_FOR_URI] can produce. *)
Definition uri_safe (c : ascii) : bool :=
  always_safe c || Ascii.eqb c "/" || Ascii.eqb c "%".

Definition all_chars (p : ascii -> bool) (s : string) : bool :=
  forallb p (list_ascii_of_string s).

Definition is_ascii (c : ascii) : bool := (nat_of_ascii c <? 128)%nat.

(** The integers [str] renders: those of at most [max_str_digits]
    digits, the default limit of Python 3.11. *)
Definition max_str_digits : Z := 4300.
Definition str_int_max : Z := 10 ^ max_str_digits - 1.

Definition hello_en : Literal :=
  {| lexical := "Hello"; language := Some "en"; datatype := None;
     value := Some (PyStr "Hello") |}.
Definition int_literal (z : Z) : Literal :=
  typed (Str.of_Z z) XSD.integer (PyInt z).
Definition dateTime_literal : Literal :=
  typed "2020-01-01T00:00:00" XSD.dateTime
    (PyObject "datetime" "2020-01-01 00:00:00" true).

(** A cast library that knows the numeric and string datatypes and has
    no parser. *)
Definition no_CastLib : CastLib :=
  {| XSD_DTs := XSD.string :: XSD.boolean :: XSD.dateTime
                :: numeric_datatypes;
     parse_datetime := fun _ => None;
     float_of_str := fun _ => None;
     int_of_str := fun _ => None;
     Literal_of_term := fun _ _ => Raise (TypeError "Literal") |}.

(** The value of the flags for the letters present. *)
Definition flag_bits (i m s : bool) : Z :=
  Z.lor (if i then re.IGNORECASE else 0)
    (Z.lor (if m then re.MULTILINE else 0) (if s then re.DOTALL else 0)).

(** Binding every IRI of a list to [default_cast], raw. *)
Definition bind_casts {lib : PyLib} {terms : TermLib} {casts : CastLib}
  (uris : list URIRef) (registry : gmap string (Callable * bool))
  : gmap string (Callable * bool) :=
  fold_left (fun r uri => <[uri := (default_cast_callable, true)]> r)
    uris registry.

(** ** Comparison of terms *)

(** The language tag as the comparison of literals reads it:
    [l.language.lower() if l.language else None]. *)
Definition language_key (l : Literal) : option string :=
  if truthy (language l) then option_map lower (language l) else None.

(** Modelled from the spec: Python's [x == y] on what a slot holds, which
    belongs to the term model and is not among the operators.  Two terms
    are equal when they are of the same kind and, for literals, have the
    same lexical form, the same datatype and the same language, the tags
    compared without regard to case.  An error object is no term: it is
    equal to no term, and to no error object of another evaluation. *)
Definition value_eqb (x y : Value) : bool :=
  match x, y with
  | TURIRef a, TURIRef b => String.eqb a b
  | TBNode a, TBNode b => String.eqb a b
  | TLiteral a, TLiteral b =>
      String.eqb (lexical a) (lexical b)
      && bool_decide (datatype a = datatype b)
      && bool_decide (language_key a = language_key b)
  | TVariable a, TVariable b => String.eqb a b
  | TNone, TNone => true
  | _, _ => false
  end.

(** [x == expr] returns a boolean and raises nothing. *)
Definition term_eq (x expr : Value) : Result bool := Ok (value_eqb x expr).

(** * Properties *)

(** ** Effective boolean value *)

Lemma EBV_boolean l :
  datatype l = Some XSD.boolean -> EBV (TLiteral l) = Ok (toPython l).
Proof. intros E. unfold EBV. now rewrite E. Qed.

Lemma EBV_boolean_value l b :
  datatype l = Some XSD.boolean -> value l = Some (PyBool b) ->
  EBV (TLiteral l) = Ok (Native (PyBool b)).
Proof.
  intros E V. rewrite (EBV_boolean l E). unfold toPython. now rewrite V.
Qed.

Lemma EBV_string l :
  datatype l = Some XSD.string \/ datatype l = None ->
  EBV (TLiteral l) = Ok (Native (PyBool (negb (String.eqb (lexical l) "")))).
Proof.
  intros [E | E]; unfold EBV; rewrite E; simpl;
    destruct (lexical l); reflexivity.
Qed.

Lemma EBV_not_literal rt :
  (forall l, rt <> TLiteral l) ->
  EBV rt = Raise (SPARQLTypeError "Only literals have Boolean values!").
Proof. intros N. destruct rt; try reflexivity. now destruct (N l). Qed.

Lemma EBV_no_value l :
  dt_is (datatype l) XSD.boolean = false ->
  dt_is (datatype l) XSD.string = false ->
  is_Some_b (datatype l) = true ->
  value l = None ->
  EBV (TLiteral l) = Raise (SPARQLTypeError "Could not determine the EBV").
Proof.
  intros B S D V. unfold EBV, toPython. now rewrite B, S, D, V.
Qed.

(** Case analysis on a datatype known to be one of the sixteen numeric
    ones: the goal is checked on each of them. *)
Ltac by_numeric_datatype d :=
  let u := fresh "u" in
  let H := fresh "H" in
  destruct d as [u |]; [| discriminate]; intros H;
  unfold dt_in, numeric_datatypes in H; simpl in H;
  repeat (apply orb_prop in H; destruct H as [H | H]);
  try discriminate; apply String.eqb_eq in H; subst u; now vm_compute.

Lemma numeric_datatype_not_boolean_nor_string d :
  dt_in d numeric_datatypes = true ->
  dt_is d XSD.boolean = false /\ dt_is d XSD.string = false
  /\ is_Some_b d = true.
Proof. by_numeric_datatype d. Qed.

(** For an integer or decimal value of a numeric datatype the EBV is true
    exactly when the value is not zero; for a float it is true exactly
    when the value is not a zero, a NaN included. *)
Lemma EBV_numeric l v :
  dt_in (datatype l) numeric_datatypes = true -> value l = Some v ->
  EBV (TLiteral l) = Ok (Native (PyBool (py_bool v))).
Proof.
  intros D V.
  destruct (numeric_datatype_not_boolean_nor_string _ D) as (B & S & N).
  unfold EBV, toPython. now rewrite B, S, N, V.
Qed.

(** The rows of the truth table on which code and documentation agree. *)
Lemma EBV_truth_table :
  EBV (TLiteral (Literal_bool true)) = Ok (Native (PyBool true))
  /\ EBV (TLiteral (Literal_bool false)) = Ok (Native (PyBool false))
  /\ EBV (TLiteral (plain "")) = Ok (Native (PyBool false))
  /\ EBV (TLiteral (plain "x")) = Ok (Native (PyBool true))
  /\ EBV (TLiteral (typed "x" XSD.string (PyStr "x")))
     = Ok (Native (PyBool true))
  /\ EBV (TLiteral (typed "0" XSD.integer (PyInt 0)))
     = Ok (Native (PyBool false))
  /\ EBV (TLiteral (typed "0.0" XSD.double (PyFloat (S754_zero false))))
     = Ok (Native (PyBool false))
  /\ EBV (TLiteral five) = Ok (Native (PyBool true))
  /\ EBV (TURIRef "http://example.org/a")
     = Raise (SPARQLTypeError "Only literals have Boolean values!")
  /\ EBV (TBNode "b0")
     = Raise (SPARQLTypeError "Only literals have Boolean values!")
  /\ EBV (TVariable "x")
     = Raise (SPARQLTypeError "Only literals have Boolean values!").
Proof. repeat split. Qed.

(** C1. The docstring of [EBV] and the claim give a NaN the effective
    boolean value false; the code returns [bool(float("NaN"))], which is
    true.  A literal of another datatype that has a Python value, such as
    an [xsd:dateTime], gets the truth value of that object instead of a
    type error. *)
Theorem EBV_NaN_is_true :
  numeric (TLiteral NaN_double) = Ok (Native (PyFloat S754_nan))
  /\ EBV (TLiteral NaN_double) = Ok (Native (PyBool true))
  /\ EBV (TLiteral new_year) = Ok (Native (PyBool true)).
Proof. repeat split. Qed.

(** ** Membership *)

Section Membership.
Variable eq : Value -> Value -> Result bool.
Variable expr : Value.

(** The scan with an error already recorded: the later errors replace
    it. *)
Lemma in_scan_spec res l error :
  only_SPARQLErrors eq expr l = true ->
  in_scan eq expr res l error =
    if existsb (compares_equal eq expr) l
    then Ok (TLiteral (Literal_bool (negb res)))
    else match last (option_list error ++ comparison_errors eq expr l) with
         | Some e => Raise e
         | None => Ok (TLiteral (Literal_bool res))
         end.
Proof.
  unfold only_SPARQLErrors.
  revert error. induction l as [| x l IH]; intros error H.
  - simpl. rewrite app_nil_r. destruct error; reflexivity.
  - simpl in *. unfold compares_equal at 1.
    destruct (eq x expr) as [[|] | e] eqn:E; simpl in *.
    + reflexivity.
    + now apply IH.
    + apply andb_prop in H as [He H]. rewrite He, (IH _ H).
      destruct (existsb _ l); [reflexivity |].
      destruct error as [e0 |]; reflexivity.
Qed.

End Membership.

(** The comparison of terms raises nothing, whatever the list holds. *)
Lemma term_eq_raises_nothing expr l : comparison_errors term_eq expr l = [].
Proof. induction l as [| x l IH]; [reflexivity | exact IH]. Qed.

(** C2, as the code has it.  The elements of the list reach the loop
    evaluated, an erroring element as its error object, and the loop
    compares them with [==].  When no comparison raises, as the
    comparison of terms never does, [IN] is true exactly when some
    element compares equal and false otherwise, whether or not an element
    is an error: the handler of the loop records nothing and no error is
    raised.  [NOT IN] is the complement, and the empty list gives
    false. *)
Theorem IN_ignores_errors_of_elements eq expr other op :
  comparison_errors eq expr (elements other) = [] ->
  RelationalExpression eq expr (Some other) op
  = Ok (TLiteral (Literal_bool
                    (xorb (existsb (compares_equal eq expr) (elements other))
                       (is_NOT_IN op))))
  /\ RelationalExpression eq expr (Some NIL) IN
     = Ok (TLiteral (Literal_bool false))
  /\ (forall e, RelationalExpression eq expr (Some other) op <> Raise e).
Proof.
  intros H.
  assert (S : RelationalExpression eq expr (Some other) op
              = Ok (TLiteral (Literal_bool
                      (xorb (existsb (compares_equal eq expr)
                               (elements other)) (is_NOT_IN op))))).
  { unfold RelationalExpression.
    change (match other with NIL => [] | Items l => l end)
      with (elements other).
    rewrite (in_scan_spec eq expr _ _ None).
    - rewrite H. destruct (existsb _ _), op; reflexivity.
    - unfold only_SPARQLErrors. now rewrite H. }
  split; [exact S |]. split; [reflexivity |].
  intros e. rewrite S. discriminate.
Qed.

Lemma IN_ignores_errors_of_elements_witness :
  comparison_errors term_eq (TLiteral five)
    (elements (Items [TError error1; TLiteral six])) = []
  /\ RelationalExpression term_eq (TLiteral five)
       (Some (Items [TError error1; TLiteral six])) IN
     = Ok (TLiteral (Literal_bool false)).
Proof.
  split; [reflexivity |].
  exact (proj1 (IN_ignores_errors_of_elements term_eq (TLiteral five)
                  (Items [TError error1; TLiteral six]) IN eq_refl)).
Defined.

(** With the comparison of terms the membership test never raises. *)
Lemma IN_of_terms expr other op :
  RelationalExpression term_eq expr (Some other) op
  = Ok (TLiteral (Literal_bool
                    (xorb (existsb (compares_equal term_eq expr)
                             (elements other)) (is_NOT_IN op)))).
Proof.
  unfold RelationalExpression.
  change (match other with NIL => [] | Items l => l end)
    with (elements other).
  rewrite (in_scan_spec term_eq expr _ _ None).
  - rewrite term_eq_raises_nothing.
    destruct (existsb _ _), op; reflexivity.
  - unfold only_SPARQLErrors. now rewrite term_eq_raises_nothing.
Qed.

(** A match after an erroring element gives true, no match gives false,
    and the empty list false. *)
Lemma IN_examples :
  RelationalExpression term_eq (TLiteral five)
    (Some (Items [TError error1; TLiteral five])) IN
  = Ok (TLiteral (Literal_bool true))
  /\ RelationalExpression term_eq (TLiteral five)
       (Some (Items [TError error1; TLiteral six])) NOT_IN
     = Ok (TLiteral (Literal_bool true))
  /\ RelationalExpression term_eq (TLiteral five) (Some NIL) IN
     = Ok (TLiteral (Literal_bool false)).
Proof. repeat split. Qed.

(** ** Conjunction *)

(** [all_EBV] is decided by the first operand whose EBV is not true. *)
Lemma all_EBV_true xs : all_EBV xs = Ok true <-> Forall EBV_true xs.
Proof.
  induction xs as [| x xs IH]; simpl.
  - split; [constructor | reflexivity].
  - split.
    + destruct (EBV x) as [b | e] eqn:E; simpl; [| discriminate].
      destruct (truth b) eqn:T; [| discriminate].
      intros H. constructor; [now exists b | now apply IH].
    + intros H. inversion H as [| ? ? (b & E & T) H']; subst.
      rewrite E. simpl. rewrite T. now apply IH.
Qed.

Lemma all_EBV_false xs :
  all_EBV xs = Ok false <->
  exists pre x post,
    xs = (pre ++ x :: post)%list /\ Forall EBV_true pre /\ EBV_false x.
Proof.
  induction xs as [| x xs IH]; simpl.
  - split; [discriminate |]. intros (pre & y & post & E & _).
    now destruct pre.
  - split.
    + destruct (EBV x) as [b | e] eqn:E; simpl; [| discriminate].
      destruct (truth b) eqn:T.
      * intros H. apply IH in H as (pre & y & post & -> & F & N).
        exists (x :: pre), y, post. repeat split; [| assumption].
        constructor; [now exists b | assumption].
      * intros _. exists [], x, xs. repeat split; [constructor |].
        now exists b.
    + intros (pre & y & post & E & F & (b & Eb & T)).
      destruct pre as [| p pre]; simpl in E; inversion E; subst.
      * rewrite Eb. simpl. now rewrite T.
      * inversion F as [| ? ? (b' & Eb' & T') F']; subst.
        rewrite Eb'. simpl. rewrite T'. apply IH.
        exists pre, y, post. split; [reflexivity |].
        split; [assumption |]. now exists b.
Qed.

Lemma all_EBV_raise xs e :
  all_EBV xs = Raise e <->
  exists pre x post,
    xs = (pre ++ x :: post)%list /\ Forall EBV_true pre /\ EBV x = Raise e.
Proof.
  induction xs as [| x xs IH]; simpl.
  - split; [discriminate |]. intros (pre & y & post & E & _).
    now destruct pre.
  - split.
    + destruct (EBV x) as [b | e'] eqn:E; simpl.
      * destruct (truth b) eqn:T; [| discriminate].
        intros H. apply IH in H as (pre & y & post & -> & F & N).
        exists (x :: pre), y, post. repeat split; [| assumption].
        constructor; [now exists b | assumption].
      * intros [= ->]. exists [], x, xs. repeat split; [constructor |].
        assumption.
    + intros (pre & y & post & E & F & Ee).
      destruct pre as [| p pre]; simpl in E; inversion E; subst.
      * now rewrite Ee.
      * inversion F as [| ? ? (b' & Eb' & T') F']; subst.
        rewrite Eb'. simpl. rewrite T'. apply IH.
        exists pre, y, post. split; [reflexivity |].
        split; assumption.
Qed.

(** C3, as the code has it.  The conjunction is true exactly when the EBV
    of every operand is true.  Otherwise the first operand, from the
    left, whose EBV is not true decides: the result is false when that
    EBV is false, and it is the error of that operand when its EBV
    raises.  A false operand therefore makes the result false only when
    no operand before it raises. *)
Theorem AND_first_failing_operand_decides expr other :
  (ConditionalAndExpression expr (Some other)
     = Ok (TLiteral (Literal_bool true))
   <-> Forall EBV_true (expr :: other))
  /\ (ConditionalAndExpression expr (Some other)
        = Ok (TLiteral (Literal_bool false))
      <-> exists pre x post,
            expr :: other = (pre ++ x :: post)%list
            /\ Forall EBV_true pre /\ EBV_false x)
  /\ (forall e,
        ConditionalAndExpression expr (Some other) = Raise e
        <-> exists pre x post,
              expr :: other = (pre ++ x :: post)%list
              /\ Forall EBV_true pre /\ EBV x = Raise e).
Proof.
  unfold ConditionalAndExpression.
  repeat split.
  - intros H. apply all_EBV_true.
    destruct (all_EBV (expr :: other)) as [b | e]; [| discriminate].
    simpl in H. destruct b; first [reflexivity | inversion H].
  - intros H. apply all_EBV_true in H. now rewrite H.
  - intros H. apply all_EBV_false.
    destruct (all_EBV (expr :: other)) as [b | e]; [| discriminate].
    simpl in H. destruct b; first [reflexivity | inversion H].
  - intros H. apply all_EBV_false in H. now rewrite H.
  - intros H. apply all_EBV_raise.
    destruct (all_EBV (expr :: other)) as [b | e']; [discriminate |].
    simpl in H. now inversion H.
  - intros H. apply all_EBV_raise in H. now rewrite H.
Qed.

(** C3 as stated fails: the second operand is a definite false, yet the
    conjunction raises the type error of the first operand. *)
Lemma AND_error_before_false_counterexample :
  EBV (TLiteral (Literal_bool false)) = Ok (Native (PyBool false))
  /\ ConditionalAndExpression (TURIRef "http://example.org/a")
       (Some [TLiteral (Literal_bool false)])
     = Raise (SPARQLTypeError "Only literals have Boolean values!").
Proof. split; reflexivity. Qed.

(** A false operand before the erroring one does make the result false. *)
Lemma AND_false_before_error :
  ConditionalAndExpression (TLiteral (Literal_bool false))
    (Some [TURIRef "http://example.org/a"])
  = Ok (TLiteral (Literal_bool false)).
Proof. reflexivity. Qed.

(** ** Date and time arithmetic *)

Section DateTime.
Context {lib : PyLib} {terms : TermLib}.
Variables obj1 obj2 : PyObj.

Lemma date_yearMonthDuration_compatible :
  isCompatibleDateTimeDatatype obj1 (Some XSD.date) obj2
    (Some XSD.yearMonthDuration) = Ok (Some true).
Proof. reflexivity. Qed.

Lemma date_dayTimeDuration_compatible :
  isCompatibleDateTimeDatatype obj1 (Some XSD.date) obj2
    (Some XSD.dayTimeDuration)
  = Ok (Some (negb (Str.contains_char "T" (py_str obj2)))).
Proof.
  unfold isCompatibleDateTimeDatatype.
  change (dt_is (Some XSD.date) XSD.date) with true.
  change (dt_is (Some XSD.dayTimeDuration) XSD.yearMonthDuration) with false.
  change (dt_is (Some XSD.dayTimeDuration) XSD.dayTimeDuration) with true.
  cbv iota. simpl orb. cbv iota.
  now destruct (Str.contains_char "T" (py_str obj2)).
Qed.

Lemma time_yearMonthDuration_incompatible :
  isCompatibleDateTimeDatatype obj1 (Some XSD.time) obj2
    (Some XSD.yearMonthDuration) = Ok (Some false).
Proof. reflexivity. Qed.

Lemma time_dayTimeDuration_compatible :
  isCompatibleDateTimeDatatype obj1 (Some XSD.time) obj2
    (Some XSD.dayTimeDuration)
  = let* c := Str.index (py_str obj2) 1 in Ok (Some (Ascii.eqb "T" c)).
Proof.
  unfold isCompatibleDateTimeDatatype.
  change (dt_is (Some XSD.time) XSD.date) with false.
  change (dt_is (Some XSD.time) XSD.time) with true.
  change (dt_is (Some XSD.dayTimeDuration) XSD.yearMonthDuration) with false.
  change (dt_is (Some XSD.dayTimeDuration) XSD.dayTimeDuration) with true.
  cbv iota. simpl orb. cbv iota.
  destruct (Str.index (py_str obj2) 1) as [c |]; [| reflexivity].
  cbn [bind]. now destruct (Ascii.eqb "T" c).
Qed.

Lemma dateTime_compatible dt2 :
  isCompatibleDateTimeDatatype obj1 (Some XSD.dateTime) obj2 dt2
  = Ok (Some true).
Proof. reflexivity. Qed.

(** C4.  The general duration datatype is [XSD.duration]; the code tests
    [dt2 == XSD.Duration], an IRI no literal carries.  With a date or a
    time on the left and an [xsd:duration] on the right no branch
    returns, the function yields [None], and the operation is refused,
    also for a duration without a time component added to a date. *)
Theorem date_plus_duration_refused operation :
  isCompatibleDateTimeDatatype obj1 (Some XSD.date) obj2 (Some XSD.duration)
    = Ok None
  /\ isCompatibleDateTimeDatatype obj1 (Some XSD.time) obj2
       (Some XSD.duration) = Ok None
  /\ calculateFinalDateTime obj1 (Some XSD.date) obj2 (Some XSD.duration)
       operation
     = Raise (SPARQLError "Incompatible Data types to DateTime Operations")
  /\ calculateFinalDateTime obj1 (Some XSD.time) obj2 (Some XSD.duration)
       operation
     = Raise (SPARQLError "Incompatible Data types to DateTime Operations")
  /\ AdditiveExpression_datetime date_literal [operation]
       [TLiteral P1D_duration]
     = Raise (SPARQLError "Incompatible Data types to DateTime Operations").
Proof. repeat split. Qed.

(** The same date and the same one-day duration pass the test when the
    duration is typed [xsd:dayTimeDuration], and a year is added to a
    date; the sum itself is the library's. *)
Lemma date_plus_other_durations :
  AdditiveExpression_datetime date_literal ["+"]
    [TLiteral P1D_dayTimeDuration]
  = (let* ans := py_add (toPython date_literal)
                   (toPython P1D_dayTimeDuration) in
     Ok (TLiteral (Literal_of ans (Some XSD.date))))
  /\ AdditiveExpression_datetime date_literal ["+"]
       [TLiteral P1Y_yearMonthDuration]
     = (let* ans := py_add (toPython date_literal)
                      (toPython P1Y_yearMonthDuration) in
        Ok (TLiteral (Literal_of ans (Some XSD.date))))
  /\ AdditiveExpression_datetime time_literal ["+"]
       [TLiteral P1Y_yearMonthDuration]
     = Raise (SPARQLError "Incompatible Data types to DateTime Operations").
Proof. repeat split. Qed.

End DateTime.

(** ** Regular expressions *)

Lemma cFlag_of_i : cFlag_of (Some "i") = Ok re.IGNORECASE.
Proof. reflexivity. Qed.

Lemma cFlag_of_ism : cFlag_of (Some "ism") = Ok 26.
Proof. reflexivity. Qed.

Lemma cFlag_of_unknown : cFlag_of (Some "x") = Ok 0.
Proof. reflexivity. Qed.

(** Whatever the flag letters, [REPLACE] yields what it yields with a
    substitution that ignores its flags: they never reach the matching. *)
Lemma REPLACE_never_sets_flags {lib : PyLib} {terms : TermLib}
  arg pattern replacement flags :
  Builtin_REPLACE (lib := without_sub_flags lib) arg pattern replacement flags
  = Builtin_REPLACE (lib := lib) arg pattern replacement flags.
Proof. reflexivity. Qed.

(** C5.  [REPLACE] maps the flag letters as [REGEX] does, but hands the
    result to [re.sub] as its fourth positional argument, which is
    [count]; the flags of the substitution stay 0.  With the flag [i] the
    pattern is matched case-sensitively and at most two matches are
    replaced.  [REGEX] passes the same value to [re.search] as flags. *)
Theorem REPLACE_passes_flags_as_count {lib : PyLib} {terms : TermLib} :
  Builtin_REPLACE (TLiteral (plain "aAaA")) (TLiteral (plain "a"))
    (TLiteral (plain "x")) (Some "i")
  = (let* replacement := re_sub "\$([0-9]*)" "\\\1" "x" 0 0 in
     let* s := re_sub "a" replacement "aAaA" re.IGNORECASE 0 in
     let* l := Literal_str s None None in
     Ok (TLiteral l))
  /\ Builtin_REGEX (TLiteral (plain "aAaA")) (TLiteral (plain "a")) (Some "i")
     = (let* found := re_search "a" "aAaA" re.IGNORECASE in
        Ok (TLiteral (Literal_bool found))).
Proof. split; reflexivity. Qed.

(** ** Rounding *)

Lemma Frac_of_scaled_den_pos c base e :
  0 < base -> 0 < den (Frac_of_scaled c base e).
Proof.
  intros B. unfold Frac_of_scaled.
  destruct (0 <=? e) eqn:E; simpl; [lia |].
  apply Z.pow_pos_nonneg; lia.
Qed.

Lemma exact_value_den_pos v q : exact_value v = Some q -> 0 < den q.
Proof.
  destruct v as [[b | z | f | d | s | c r t] | l]; simpl; try discriminate.
  - intros [= <-]. simpl. lia.
  - intros [= <-]. simpl. lia.
  - destruct f as [s | s | | s m e]; simpl; try discriminate.
    + intros [= <-]. simpl. lia.
    + intros [= <-]. now apply Frac_of_scaled_den_pos.
  - destruct d as [c e | s |]; simpl; try discriminate.
    intros [= <-]. now apply Frac_of_scaled_den_pos.
Qed.

Lemma Frac_round_half_up_nearest q :
  0 < den q -> nearest_half_away q (Frac_round_half_up q).
Proof.
  destruct q as [n d]. unfold nearest_half_away, Frac_round_half_up. simpl.
  intros D.
  pose proof (Z.div_mod (2 * Z.abs n + d) (2 * d) ltac:(lia)) as E.
  pose proof (Z.mod_pos_bound (2 * Z.abs n + d) (2 * d) ltac:(lia)) as B.
  set (k := (2 * Z.abs n + d) / (2 * d)) in *.
  set (r := (2 * Z.abs n + d) mod (2 * d)) in *.
  assert (K : 0 <= k) by (apply Z.div_pos; lia).
  destruct (Z.sgn_spec n) as [(? & ->) | [(? & ->) | (? & ->)]];
    split; intros; nia.
Qed.

(** There is one such integer. *)
Lemma nearest_half_away_unique q z1 z2 :
  0 < den q -> nearest_half_away q z1 -> nearest_half_away q z2 -> z1 = z2.
Proof.
  destruct q as [n d]. unfold nearest_half_away. simpl.
  intros D [A1 T1] [A2 T2].
  assert (C : z1 = z2 \/ z2 = z1 + 1 \/ z1 = z2 + 1) by nia.
  destruct C as [C | [C | C]]; [exact C | exfalso; subst .. ].
  - assert (E : 2 * n = 2 * z1 * d + d) by nia.
    assert (E1 : 2 * Z.abs (n - z1 * d) = d) by lia.
    assert (E2 : 2 * Z.abs (n - (z1 + 1) * d) = d) by lia.
    specialize (T1 E1). specialize (T2 E2). nia.
  - assert (E : 2 * n = 2 * z2 * d + d) by nia.
    assert (E1 : 2 * Z.abs (n - z2 * d) = d) by lia.
    assert (E2 : 2 * Z.abs (n - (z2 + 1) * d) = d) by lia.
    specialize (T1 E2). specialize (T2 E1). nia.
Qed.

(** Scaling numerator and denominator by a positive factor does not
    change the rounding. *)
Lemma Frac_round_half_up_scale n d c :
  0 < d -> 0 < c ->
  Frac_round_half_up (mkFrac (n * c) (d * c)) = Frac_round_half_up (mkFrac n d).
Proof.
  intros D C. unfold Frac_round_half_up. simpl.
  rewrite Z.sgn_mul, (Z.sgn_pos c C), Z.mul_1_r. f_equal.
  rewrite Z.abs_mul, (Z.abs_eq c) by lia.
  replace (2 * (Z.abs n * c) + d * c) with ((2 * Z.abs n + d) * c) by ring.
  replace (2 * (d * c)) with (2 * d * c) by ring.
  apply Z.div_mul_cancel_r; lia.
Qed.

Lemma Decimal_of_float_finite s m e :
  exists c e',
    Decimal_of_float (S754_finite s m e) = DFinite c e'
    /\ Frac_round_half_up (Frac_of_scaled c 10 e')
       = Frac_round_half_up (Frac_of_scaled (signed s m) 2 e).
Proof.
  unfold Decimal_of_float, Frac_of_scaled.
  destruct (0 <=? e) eqn:E.
  - exists (signed s m * 2 ^ e), 0. split; [reflexivity |].
    simpl. now rewrite Z.mul_1_r.
  - exists (signed s m * 5 ^ (- e)), e. split; [reflexivity |].
    rewrite E.
    assert (N : 0 <= - e) by lia.
    replace (10 ^ (- e)) with (2 ^ (- e) * 5 ^ (- e))
      by (rewrite <- Z.pow_mul_l; reflexivity).
    apply Frac_round_half_up_scale; apply Z.pow_pos_nonneg; lia.
Qed.

Lemma int_of_rounded r : int_of_Decimal (DFinite r 0) = Ok r.
Proof.
  unfold int_of_Decimal, Frac_of_scaled. simpl.
  now rewrite Z.mul_1_r, Z.quot_1_r.
Qed.

Lemma numeric_datatype_truthy d :
  dt_in d numeric_datatypes = true -> truthy d = true.
Proof. by_numeric_datatype d. Qed.

Lemma Literal_int_datatype z d :
  dt_in d numeric_datatypes = true -> datatype (Literal_int z d) = d.
Proof. intros H. simpl. now rewrite (numeric_datatype_truthy d H). Qed.

(** What [Decimal(v).quantize(1, ROUND_HALF_UP)] followed by [int] gives
    on a finite number whose rounding fits the precision. *)
Lemma round_pipeline {lib : PyLib} v q :
  exact_value v = Some q ->
  Z.abs (Frac_round_half_up q) < 10 ^ prec ->
  (let* d := Decimal_new v in
   let* r := quantize_1_ROUND_HALF_UP d in
   int_of_Decimal r) = Ok (Frac_round_half_up q).
Proof.
  intros V B.
  assert (Q : forall c e,
    Frac_round_half_up (Frac_of_scaled c 10 e) = Frac_round_half_up q ->
    (let* r := quantize_1_ROUND_HALF_UP (DFinite c e) in int_of_Decimal r)
    = Ok (Frac_round_half_up q)).
  { intros c e R. unfold quantize_1_ROUND_HALF_UP. rewrite R.
    apply Z.ltb_lt in B. rewrite B. cbn [bind]. apply int_of_rounded. }
  destruct v as [[b | z | f | d | s | c r t] | l]; simpl in V;
    try discriminate.
  - injection V as <-. cbn [Decimal_new bind]. apply Q.
    unfold Frac_of_scaled. simpl. now rewrite Z.mul_1_r.
  - injection V as <-. cbn [Decimal_new bind]. apply Q.
    unfold Frac_of_scaled. simpl. now rewrite Z.mul_1_r.
  - destruct f as [s | s | | s m e]; simpl in V; try discriminate;
      injection V as <-.
    + cbn [Decimal_new bind Decimal_of_float]. now apply Q.
    + cbn [Decimal_new bind].
      destruct (Decimal_of_float_finite s m e) as (c & e' & -> & R).
      now apply Q.
  - destruct d as [c e | s |]; simpl in V; try discriminate.
    injection V as <-. cbn [Decimal_new bind]. now apply Q.
Qed.

(** C6, as the code has it.  For a literal of a numeric datatype whose
    value is a finite number, and whose rounding has at most 28 digits,
    [ROUND] returns the integer nearest to the value, a tie going away
    from zero, under the datatype of the operand. *)
Theorem ROUND_half_away_from_zero {lib : PyLib} l q :
  dt_in (datatype l) numeric_datatypes = true ->
  exact_value (toPython l) = Some q ->
  Z.abs (Frac_round_half_up q) < 10 ^ prec ->
  Builtin_ROUND (TLiteral l)
  = Ok (TLiteral (Literal_int (Frac_round_half_up q) (datatype l)))
  /\ nearest_half_away q (Frac_round_half_up q).
Proof.
  intros D V B. split.
  - unfold Builtin_ROUND, numeric. rewrite D. cbn [negb bind].
    pose proof (round_pipeline _ _ V B) as P.
    destruct (Decimal_new (toPython l)) as [d |]; [| discriminate].
    cbn [bind] in *.
    destruct (quantize_1_ROUND_HALF_UP d) as [r |]; [| discriminate].
    cbn [bind] in *. now rewrite P.
  - apply Frac_round_half_up_nearest. eapply exact_value_den_pos, V.
Qed.

Lemma ROUND_half_away_from_zero_witness :
  (dt_in (datatype decimal_minus_2_5) numeric_datatypes = true
   /\ exact_value (toPython decimal_minus_2_5) = Some (mkFrac (-25) 10)
   /\ Z.abs (Frac_round_half_up (mkFrac (-25) 10)) < 10 ^ prec)
  /\ Builtin_ROUND (lib := no_PyLib) (TLiteral decimal_minus_2_5)
     = Ok (TLiteral (typed "-3" XSD.decimal (PyInt (-3)))).
Proof.
  split; [repeat split |].
  exact (proj1 (ROUND_half_away_from_zero (lib := no_PyLib)
                  decimal_minus_2_5 (mkFrac (-25) 10)
                  eq_refl eq_refl eq_refl)).
Defined.

(** The examples of the claim, on decimals and on doubles. *)
Lemma ROUND_examples {lib : PyLib} :
  Builtin_ROUND (TLiteral decimal_2_5)
    = Ok (TLiteral (typed "3" XSD.decimal (PyInt 3)))
  /\ Builtin_ROUND (TLiteral decimal_minus_2_5)
     = Ok (TLiteral (typed "-3" XSD.decimal (PyInt (-3))))
  /\ Builtin_ROUND (TLiteral decimal_2_4)
     = Ok (TLiteral (typed "2" XSD.decimal (PyInt 2)))
  /\ Builtin_ROUND (TLiteral double_2_5)
     = Ok (TLiteral (typed "3" XSD.double (PyInt 3)))
  /\ Builtin_ROUND (TLiteral double_minus_2_5)
     = Ok (TLiteral (typed "-3" XSD.double (PyInt (-3))))
  /\ Builtin_ROUND (TLiteral double_2_4)
     = Ok (TLiteral (typed "2" XSD.double (PyInt 2))).
Proof. repeat split. Qed.

Lemma ROUND_NaN {lib : PyLib} :
  Builtin_ROUND (TLiteral NaN_double)
  = Raise (ValueError "cannot convert NaN to integer").
Proof. reflexivity. Qed.

Lemma ROUND_too_many_digits {lib : PyLib} :
  Builtin_ROUND (TLiteral ten_to_28) = Raise InvalidOperation.
Proof. reflexivity. Qed.

(** C6 as stated fails: [numeric] accepts the integer 10^28, which is its
    own nearest integer, and the NaN of [xsd:double]; [ROUND] raises on
    both instead of returning a literal. *)
Lemma ROUND_not_for_every_numeric_counterexample :
  numeric (TLiteral ten_to_28) = Ok (Native (PyInt (10 ^ 28)))
  /\ Builtin_ROUND (lib := no_PyLib) (TLiteral ten_to_28)
     = Raise InvalidOperation
  /\ numeric (TLiteral NaN_double) = Ok (Native (PyFloat S754_nan))
  /\ Builtin_ROUND (lib := no_PyLib) (TLiteral NaN_double)
     = Raise (ValueError "cannot convert NaN to integer").
Proof. repeat split. Qed.

(** ** Datatype of the numeric builtins *)

Lemma bind_Ok {A B} (c : Result A) (k : A -> Result B) b :
  bind c k = Ok b -> exists a, c = Ok a /\ k a = Ok b.
Proof. destruct c as [a | e]; [| discriminate]. intros E. now exists a. Qed.

Lemma numeric_Ok_datatype l v :
  numeric (TLiteral l) = Ok v -> dt_in (datatype l) numeric_datatypes = true.
Proof.
  unfold numeric. destruct (dt_in (datatype l) numeric_datatypes);
    [reflexivity | discriminate].
Qed.

Lemma CEIL_keeps_datatype l r :
  Builtin_CEIL (TLiteral l) = Ok (TLiteral r) -> datatype r = datatype l.
Proof.
  unfold Builtin_CEIL. intros E.
  apply bind_Ok in E as (v & N & E). apply bind_Ok in E as (z & _ & E).
  simpl in E. injection E as <-.
  apply Literal_int_datatype. eapply numeric_Ok_datatype, N.
Qed.

Lemma FLOOR_keeps_datatype l r :
  Builtin_FLOOR (TLiteral l) = Ok (TLiteral r) -> datatype r = datatype l.
Proof.
  unfold Builtin_FLOOR. intros E.
  apply bind_Ok in E as (v & N & E). apply bind_Ok in E as (z & _ & E).
  simpl in E. injection E as <-.
  apply Literal_int_datatype. eapply numeric_Ok_datatype, N.
Qed.

Lemma ROUND_keeps_datatype {lib : PyLib} l r :
  Builtin_ROUND (TLiteral l) = Ok (TLiteral r) -> datatype r = datatype l.
Proof.
  unfold Builtin_ROUND. intros E.
  apply bind_Ok in E as (v & N & E). apply bind_Ok in E as (d & _ & E).
  apply bind_Ok in E as (q & _ & E). apply bind_Ok in E as (z & _ & E).
  simpl in E. injection E as <-.
  apply Literal_int_datatype. eapply numeric_Ok_datatype, N.
Qed.

(** [ABS] never looks at the datatype of its operand: two literals with
    the same value get the same result. *)
Lemma ABS_depends_on_value_only {lib : PyLib} {terms : TermLib} l1 l2 :
  dt_in (datatype l1) numeric_datatypes = true ->
  dt_in (datatype l2) numeric_datatypes = true ->
  value l1 = value l2 -> value l1 <> None ->
  Builtin_ABS (TLiteral l1) = Builtin_ABS (TLiteral l2).
Proof.
  intros D1 D2 V N. unfold Builtin_ABS, numeric, toPython.
  rewrite D1, D2, <- V. now destruct (value l1).
Qed.

Lemma ABS_of_int {lib : PyLib} {terms : TermLib} l z :
  dt_in (datatype l) numeric_datatypes = true ->
  value l = Some (PyInt z) ->
  Builtin_ABS (TLiteral l)
  = Ok (TLiteral (typed (Str.of_Z (Z.abs z)) XSD.integer (PyInt (Z.abs z)))).
Proof.
  intros D V. unfold Builtin_ABS, numeric, toPython. now rewrite D, V.
Qed.

(** C7.  [CEIL], [FLOOR] and [ROUND] pass [datatype=l_.datatype] to the
    literal they build; [ABS] passes none, so that the result carries the
    datatype of the Python value: the absolute value of an [xsd:byte] is
    an [xsd:integer]. *)
Theorem ABS_loses_datatype {lib : PyLib} {terms : TermLib} :
  numeric (TLiteral minus_five_byte) = Ok (Native (PyInt (-5)))
  /\ Builtin_ABS (TLiteral minus_five_byte)
     = Ok (TLiteral (typed "5" XSD.integer (PyInt 5)))
  /\ Builtin_CEIL (TLiteral minus_five_byte)
     = Ok (TLiteral (typed "-5" XSD.byte (PyInt (-5))))
  /\ XSD.integer <> XSD.byte.
Proof. repeat split. discriminate. Qed.

(** ** The simplifier *)

(** Induction over expression trees, through the lists of children. *)
Lemma Expr_ind (P : Expr -> Prop) :
  (forall v, P (Atom v)) ->
  (forall items, Forall P items -> P (PyList items)) ->
  (forall items, Forall P items -> P (ParseResults items)) ->
  (forall name slots,
     Forall (fun kv => P kv.2) slots -> P (CompValue name slots)) ->
  forall e, P e.
Proof.
  intros HA HL HP HC.
  fix IH 1. intros [v | items | items | name slots].
  - apply HA.
  - apply HL. induction items as [| x items IHl]; constructor;
      [apply IH | exact IHl].
  - apply HP. induction items as [| x items IHl]; constructor;
      [apply IH | exact IHl].
  - apply HC. induction slots as [| [k x] slots IHl]; constructor;
      [apply IH | exact IHl].
Qed.

(** The two cases of [simplify] on a node, read off its definition. *)
Lemma simplify_collapse name slots :
  is_chain name = true -> is_None (getattr slots "other") = true ->
  simplify (CompValue name slots) = simplify (getattr slots "expr").
Proof.
  intros C N. cbn [simplify]. fold (is_chain name). rewrite C, N.
  cbn [andb]. clear.
  induction slots as [| [k v] slots IH]; [reflexivity |].
  cbn [getattr]. destruct (String.eqb k "expr"); [reflexivity | apply IH].
Qed.

Lemma simplify_slots name slots :
  is_chain name && is_None (getattr slots "other") = false ->
  simplify (CompValue name slots)
  = CompValue name (map (fun kv => (kv.1, simplify kv.2)) slots).
Proof.
  intros C. cbn [simplify]. fold (is_chain name). now rewrite C.
Qed.

Lemma simplify_None : simplify (Atom TNone) = Atom TNone.
Proof. reflexivity. Qed.

Lemma getattr_simplified slots a :
  getattr (map (fun kv => (kv.1, simplify kv.2)) slots) a
  = simplify (getattr slots a).
Proof.
  induction slots as [| [k v] slots IH]; [reflexivity |].
  simpl. destruct (String.eqb k a); [reflexivity | exact IH].
Qed.

Lemma simplify_sequence items :
  simplify (PyList items) = PyList (map simplify items).
Proof. reflexivity. Qed.

Lemma simplify_ParseResults items :
  simplify (ParseResults items)
  = match items with
    | [x] => simplify x
    | _ => PyList (map simplify items)
    end.
Proof. now destruct items as [| x [| y items]]. Qed.

Lemma map_simplify_twice items :
  Forall (fun x => continuations_kept x = true ->
                   simplify (simplify x) = simplify x) items ->
  forallb continuations_kept items = true ->
  map simplify (map simplify items) = map simplify items.
Proof.
  induction 1 as [| x items Hx _ IH]; [reflexivity |].
  simpl. intros K. apply andb_prop in K as [Kx K].
  now rewrite (Hx Kx), (IH K).
Qed.

Lemma simplify_twice e :
  continuations_kept e = true -> simplify (simplify e) = simplify e.
Proof.
  induction e as [v | items IH | items IH | name slots IH] using Expr_ind;
    intros K.
  - reflexivity.
  - rewrite !simplify_sequence. f_equal.
    now apply map_simplify_twice.
  - cbn [continuations_kept] in K.
    destruct items as [| x [| y items]].
    + reflexivity.
    + cbn [simplify]. inversion IH as [| ? ? Hx _]; subst.
      apply Hx. simpl in K. now rewrite andb_true_r in K.
    + change (simplify (ParseResults (x :: y :: items)))
        with (PyList (map simplify (x :: y :: items))).
      rewrite simplify_sequence. f_equal.
      now apply map_simplify_twice.
  - cbn [continuations_kept] in K. apply andb_prop in K as [K1 K2].
    destruct (is_chain name && is_None (getattr slots "other")) eqn:C.
    + apply andb_prop in C as [C N]. rewrite (simplify_collapse _ _ C N).
      clear K1 N. induction IH as [| [k v] slots Hv _ IHs];
        [reflexivity |].
      simpl in K2. apply andb_prop in K2 as [Kv K2].
      cbn [getattr]. destruct (String.eqb k "expr"); [now apply Hv |].
      now apply IHs.
    + rewrite (simplify_slots _ _ C).
      rewrite simplify_slots.
      * f_equal. clear K1 C. induction IH as [| [k v] slots Hv _ IHs];
          [reflexivity |].
        simpl in K2, Hv. apply andb_prop in K2 as [Kv K2].
        simpl. rewrite (Hv Kv). f_equal. exact (IHs K2).
      * rewrite getattr_simplified.
        destruct (is_chain name); [| reflexivity]. simpl in *.
        rewrite C in K1. simpl in K1. now apply negb_true_iff in K1.
Qed.

(** A continuation that is a sequence never simplifies to [None]. *)
Lemma sequence_not_None e :
  is_sequence e = true -> is_None (simplify e) = false.
Proof.
  destruct e as [v | items | [| x [| y items]] | name slots];
    try discriminate; reflexivity.
Qed.

Lemma sequences_are_kept e :
  continuations_are_sequences e = true -> continuations_kept e = true.
Proof.
  induction e as [v | items IH | items IH | name slots IH] using Expr_ind;
    cbn [continuations_are_sequences continuations_kept].
  - reflexivity.
  - induction IH as [| x items Hx _ IHl]; [reflexivity |].
    simpl. intros S. apply andb_prop in S as [Sx S].
    now rewrite (Hx Sx), (IHl S).
  - induction IH as [| x items Hx _ IHl]; [reflexivity |].
    simpl. intros S. apply andb_prop in S as [Sx S].
    now rewrite (Hx Sx), (IHl S).
  - intros S. apply andb_prop in S as [S1 S2]. apply andb_true_intro. split.
    + destruct (negb (is_chain name)); [reflexivity |].
      destruct (is_None (getattr slots "other")); [reflexivity |].
      simpl in *. now rewrite (sequence_not_None _ S1).
    + clear S1. induction IH as [| [k v] slots Hv _ IHs]; [reflexivity |].
      simpl in *. apply andb_prop in S2 as [Sv S2].
      now rewrite (Hv Sv), (IHs S2).
Qed.

(** Simplifying is idempotent on the trees whose continuations are
    sequences. *)
Lemma simplify_twice_on_sequences e :
  continuations_are_sequences e = true -> simplify (simplify e) = simplify e.
Proof. intros S. now apply simplify_twice, sequences_are_kept. Qed.

(** A well-built tree never simplifies to [None]. *)
Lemma well_built_not_None e :
  well_built e = true -> is_None (simplify e) = false.
Proof.
  induction e as [v | items IH | items IH | name slots IH] using Expr_ind;
    intros W.
  - simpl in *. now apply negb_true_iff in W.
  - reflexivity.
  - destruct items as [| x [| y items]]; try reflexivity.
    cbn [simplify]. inversion IH as [| ? ? Hx _]; subst.
    apply Hx. simpl in W. now rewrite andb_true_r in W.
  - cbn [well_built] in W. apply andb_prop in W as [W1 W2].
    destruct (is_chain name && is_None (getattr slots "other")) eqn:C.
    + apply andb_prop in C as [C N]. rewrite (simplify_collapse _ _ C N).
      rewrite C in W1. simpl in W1. clear C N. unfold has_slot in W1.
      induction IH as [| [k v] slots Hv _ IHs]; [discriminate |].
      simpl in W1, W2, Hv. apply andb_prop in W2 as [Wv W2].
      cbn [getattr]. destruct (String.eqb k "expr"); [now apply Hv |].
      now apply IHs.
    + now rewrite (simplify_slots _ _ C).
Qed.

(** In a well-built tree every continuation that holds something is
    kept by the simplifier. *)
Lemma well_built_kept e :
  well_built e = true -> continuations_kept e = true.
Proof.
  induction e as [v | items IH | items IH | name slots IH] using Expr_ind;
    cbn [well_built continuations_kept].
  - reflexivity.
  - induction IH as [| x items Hx _ IHl]; [reflexivity |].
    simpl. intros W. apply andb_prop in W as [Wx W].
    now rewrite (Hx Wx), (IHl W).
  - induction IH as [| x items Hx _ IHl]; [reflexivity |].
    simpl. intros W. apply andb_prop in W as [Wx W].
    now rewrite (Hx Wx), (IHl W).
  - intros W. apply andb_prop in W as [_ W]. apply andb_true_intro. split.
    + destruct (negb (is_chain name)); [reflexivity |]. simpl.
      clear IH. induction slots as [| [k v] slots IHs]; [reflexivity |].
      simpl in W. apply andb_prop in W as [Wv W]. cbn [getattr].
      destruct (String.eqb k "other"); [| now apply IHs].
      rewrite (well_built_not_None v Wv). apply orb_true_r.
    + induction IH as [| [k v] slots Hv _ IHs]; [reflexivity |].
      simpl in *. apply andb_prop in W as [Wv W].
      now rewrite (Hv Wv), (IHs W).
Qed.

(** C8.  On every expression tree, a tree in which each chain node has
    its operand and nothing is [None], simplifying twice is simplifying
    once.  A chain node whose slot [other] is absent is replaced by the
    simplification of its slot [expr]; in every other node each slot is
    replaced by its simplification; sequences are simplified element by
    element. *)
Theorem simplify_idempotent T :
  well_built T = true ->
  simplify (simplify T) = simplify T
  /\ (forall name slots,
        is_chain name = true -> is_None (getattr slots "other") = true ->
        simplify (CompValue name slots) = simplify (getattr slots "expr"))
  /\ (forall name slots,
        is_chain name && is_None (getattr slots "other") = false ->
        simplify (CompValue name slots)
        = CompValue name (map (fun kv => (kv.1, simplify kv.2)) slots))
  /\ (forall items, simplify (PyList items) = PyList (map simplify items)).
Proof.
  intros W. split; [now apply simplify_twice, well_built_kept |].
  split; [exact simplify_collapse |].
  split; [exact simplify_slots | exact simplify_sequence].
Qed.

Lemma simplify_idempotent_witness :
  well_built wrapped_or = true
  /\ simplify (simplify wrapped_or) = simplify wrapped_or.
Proof.
  split; [reflexivity |].
  exact (proj1 (simplify_idempotent wrapped_or eq_refl)).
Defined.

Lemma simplify_wrapped_or :
  simplify wrapped_or
  = or_node (Atom (TVariable "x")) (PyList [Atom (TVariable "y")]).
Proof. reflexivity. Qed.

(** What [and_] builds from well-built operands is well built. *)
Lemma and_well_built args t :
  and_ args = Ok t -> forallb well_built args = true -> well_built t = true.
Proof.
  destruct args as [| a [| b rest]]; try discriminate.
  - intros [= <-]. simpl. now rewrite andb_true_r.
  - intros [= <-] W. cbn [forallb] in W.
    apply andb_prop in W as [Wa W].
    change (well_built a
            && (well_built b && forallb well_built rest && true) = true).
    now rewrite Wa, W.
Qed.

(** The operand of a chain node is needed: a chain node without it
    simplifies to [None], and a node that has it for continuation is
    kept by one pass and replaced by the next. *)
Lemma simplify_needs_operands :
  well_built dangling_or = false
  /\ simplify dangling_or = or_node (Atom (TLiteral five)) (Atom TNone)
  /\ simplify (simplify dangling_or) = Atom (TLiteral five).
Proof. repeat split. Qed.

(** ** The custom function registry *)

Section Registry.
Variable registry : gmap string (Callable * bool).
Variables (uri : URIRef) (func : Callable) (raw : bool).

Lemma register_fresh override :
  registry !! uri = None ->
  register_custom_function registry uri func override raw
  = Ok (<[uri := (func, raw)]> registry).
Proof.
  intros N. unfold register_custom_function.
  rewrite bool_decide_eq_false_2; [now rewrite andb_false_r |].
  rewrite N. now intros [? ?].
Qed.

Lemma register_override :
  register_custom_function registry uri func true raw
  = Ok (<[uri := (func, raw)]> registry).
Proof. reflexivity. Qed.

Lemma register_taken :
  is_Some (registry !! uri) ->
  register_custom_function registry uri func false raw
  = Raise (ValueError "A function is already registered").
Proof.
  intros S. unfold register_custom_function.
  now rewrite bool_decide_eq_true_2.
Qed.

Lemma register_raises_iff override :
  (exists err,
     register_custom_function registry uri func override raw = Raise err)
  <-> is_Some (registry !! uri) /\ override = false.
Proof.
  split.
  - intros [err E]. destruct override; [discriminate |].
    destruct (registry !! uri) as [p |] eqn:L; [split; eauto |].
    now rewrite (register_fresh false L) in E.
  - intros [S ->]. eexists. now apply register_taken.
Qed.

Lemma Function_dispatch args ctx :
  Function (<[uri := (func, raw)]> registry) (mkFunctionNode uri args) ctx
  = dispatch func raw (mkFunctionNode uri args) ctx.
Proof.
  unfold Function, iri. now rewrite lookup_insert_eq.
Qed.

Lemma Function_unknown args ctx :
  registry !! uri = None ->
  Function registry (mkFunctionNode uri args) ctx
  = Raise (SPARQLError "Unknown function").
Proof. intros N. unfold Function, iri. now rewrite N. Qed.

End Registry.

(** C9.  Registration raises exactly when the IRI is already registered
    and [override] is false; otherwise it binds the IRI to the new pair,
    replacing an earlier binding, and a later dispatch on that IRI calls
    the new function under its calling convention; dispatch on an IRI
    without a binding raises the unknown-function error. *)
Theorem register_custom_function_dispatch registry uri func override raw
  args ctx :
  ((exists err,
      register_custom_function registry uri func override raw = Raise err)
   <-> is_Some (registry !! uri) /\ override = false)
  /\ ((exists err,
       register_custom_function registry uri func override raw = Raise err)
      \/ register_custom_function registry uri func override raw
         = Ok (<[uri := (func, raw)]> registry))
  /\ register_custom_function registry uri func true raw
     = Ok (<[uri := (func, raw)]> registry)
  /\ Function (<[uri := (func, raw)]> registry) (mkFunctionNode uri args) ctx
     = dispatch func raw (mkFunctionNode uri args) ctx
  /\ (registry !! uri = None ->
      Function registry (mkFunctionNode uri args) ctx
      = Raise (SPARQLError "Unknown function")).
Proof.
  split; [apply register_raises_iff |].
  split.
  { unfold register_custom_function. destruct (_ && _); eauto. }
  split; [reflexivity |].
  split; [apply Function_dispatch | apply Function_unknown].
Qed.

Lemma register_custom_function_dispatch_witness :
  (∅ : gmap string (Callable * bool)) !! example_iri = None
  /\ Function ∅ (mkFunctionNode example_iri []) ∅
     = Raise (SPARQLError "Unknown function").
Proof.
  split; [reflexivity |].
  exact (proj2 (proj2 (proj2 (proj2
    (register_custom_function_dispatch ∅ example_iri
       (always (TLiteral five)) false false [] ∅)))) eq_refl).
Defined.

(** Registering twice: refused without [override]; with it, dispatch
    reaches the new function. *)
Lemma register_twice :
  register_custom_function one_binding example_iri (always (TLiteral six))
    false false
  = Raise (ValueError "A function is already registered")
  /\ (let* registry :=
        register_custom_function one_binding example_iri
          (always (TLiteral six)) true false in
      Function registry (mkFunctionNode example_iri []) ∅)
     = Ok (TLiteral six).
Proof.
  split; [reflexivity |].
  rewrite register_override. cbn [bind]. now rewrite Function_dispatch.
Qed.

(** ** Strings *)

Lemma startswith_spec a b :
  Str.startswith a b = true <-> exists post, a = (b ++ post)%string.
Proof.
  revert a. induction b as [| cb b IH]; intros a.
  - destruct a; simpl; split; eauto.
  - destruct a as [| ca a]; simpl.
    + split; [discriminate | intros [post E]; discriminate].
    + rewrite andb_true_iff, Ascii.eqb_eq, IH. split.
      * intros [-> [post ->]]. now exists post.
      * intros [post E]. injection E as -> ->. eauto.
Qed.

(** [find] returns -1 or the length of a prefix after which [b] stands. *)
Lemma find_found a b :
  Str.find a b <> -1 ->
  0 <= Str.find a b
  /\ exists pre post,
       a = (pre ++ b ++ post)%string /\ Str.len pre = Str.find a b.
Proof.
  induction a as [| c a IH]; cbn [Str.find].
  - destruct (Str.startswith "" b) eqn:S; [| easy].
    intros _. split; [lia |]. apply startswith_spec in S as [post E].
    now exists "", post.
  - destruct (Str.startswith (String c a) b) eqn:S.
    + intros _. split; [lia |]. apply startswith_spec in S as [post E].
      now exists "", post.
    + destruct (Str.find a b =? -1) eqn:F; [easy |].
      apply Z.eqb_neq in F. intros _.
      destruct (IH F) as (N & pre & post & -> & L). split; [lia |].
      exists (String c pre), post. split; [reflexivity |].
      unfold Str.len in *. simpl String.length. lia.
Qed.

Lemma find_absent a b : Str.find a b = -1 <-> ~ occurs b a.
Proof.
  split.
  - induction a as [| c a IH]; cbn [Str.find].
    + destruct (Str.startswith "" b) eqn:S; [discriminate |].
      intros _ (pre & post & E).
      destruct pre; [| discriminate]. simpl in E.
      assert (Str.startswith "" b = true) by (apply startswith_spec; eauto).
      congruence.
    + destruct (Str.startswith (String c a) b) eqn:S; [discriminate |].
      destruct (Str.find a b =? -1) eqn:F.
      * apply Z.eqb_eq in F. intros _ (pre & post & E).
        destruct pre as [| c' pre]; simpl in E.
        -- assert (Str.startswith (String c a) b = true)
             by (apply startswith_spec; eauto).
           congruence.
        -- injection E as -> ->. apply (IH F). now exists pre, post.
      * apply Z.eqb_neq in F. destruct (find_found a b F). lia.
  - intros N. destruct (Z.eq_dec (Str.find a b) (-1)) as [E | E]; [exact E |].
    destruct (find_found a b E) as (_ & pre & post & -> & _).
    destruct N. now exists pre, post.
Qed.

Lemma append_cons c (a b : string) :
  (String c a ++ b)%string = String c (a ++ b).
Proof. reflexivity. Qed.


Lemma drop_prefix pre rest :
  Str.drop (String.length pre) (pre ++ rest) = rest.
Proof.
  induction pre as [| c pre IH]; [reflexivity |].
  rewrite append_cons. exact IH.
Qed.

Lemma length_append (a b : string) :
  String.length (a ++ b) = (String.length a + String.length b)%nat.
Proof.
  induction a as [| c a IH]; [reflexivity |].
  rewrite append_cons. simpl. now f_equal.
Qed.

Lemma append_assoc (a b c : string) :
  ((a ++ b) ++ c = a ++ b ++ c)%string.
Proof.
  induction a as [| x a IH]; [reflexivity |].
  rewrite !append_cons. now f_equal.
Qed.



(** ** [STRBEFORE] and [STRAFTER] *)

Section StringBuiltins.
Context {terms : TermLib}.

Lemma compatible_are_strings a b :
  _compatibleStrings (TLiteral a) (TLiteral b) = Ok tt ->
  string_ (TLiteral a) = Ok a /\ string_ (TLiteral b) = Ok b.
Proof.
  unfold _compatibleStrings, string_.
  destruct (truthy (datatype a) && negb (dt_is (datatype a) XSD.string));
    [discriminate |].
  destruct (truthy (datatype b) && negb (dt_is (datatype b) XSD.string));
    [discriminate |].
  now split.
Qed.

(** On a well-formed literal the constructor keeps language and
    datatype. *)
Lemma Literal_str_well_formed a s :
  well_formed a = true ->
  Literal_str s (language a) (datatype a)
  = Ok {| lexical := s; language := language a; datatype := datatype a;
          value := _castLexicalToPython s (datatype a) |}.
Proof.
  unfold well_formed, Literal_str. intros W.
  apply andb_prop in W as [W1 W2].
  apply negb_true_iff in W1, W2. apply bool_decide_eq_false in W2.
  destruct (language a) as [lang |] eqn:L; simpl in *.
  - destruct (String.eqb_spec lang ""); [congruence |]. simpl.
    now rewrite W1.
  - reflexivity.
Qed.

(** A first argument that carries both a language tag and a datatype
    makes the two builtins raise when the second argument occurs in it:
    the constructor refuses the two slots together. *)
Lemma language_and_datatype_refused a b e :
  _compatibleStrings (TLiteral a) (TLiteral b) = Ok tt ->
  truthy (language a) = true -> is_Some_b (datatype a) = true ->
  occurs (lexical b) (lexical a) ->
  e = TypeError "A Literal can only have one of lang or datatype" ->
  Builtin_STRBEFORE (TLiteral a) (TLiteral b) = Raise e
  /\ Builtin_STRAFTER (TLiteral a) (TLiteral b) = Raise e.
Proof.
  intros C L D O ->. destruct (compatible_are_strings a b C) as [Sa Sb].
  assert (F : Str.find (lexical a) (lexical b) <> -1).
  { intros E. now apply find_absent in E. }
  apply Z.eqb_neq in F.
  unfold Builtin_STRBEFORE, Builtin_STRAFTER.
  rewrite C, Sa, Sb. cbn [bind]. rewrite F.
  unfold Literal_str. rewrite L.
  destruct (language a); [| discriminate]. rewrite D. now split.
Qed.


End StringBuiltins.



(** The literal is one the module builds: where the constructor keeps
    the language of the literal it is given, the cast of ["abc"@en] to
    [xsd:string] followed by [STRBEFORE] raises. *)
Lemma STRBEFORE_of_cast {lib : PyLib} {terms : TermLib} {casts : CastLib} :
  Literal_of_term (TLiteral abc_en) XSD.string = Ok abc_en_string ->
  (let* x := default_cast
               {| iri := XSD.string; expr := [TLiteral abc_en] |} in
   Builtin_STRBEFORE x (TLiteral (plain "b")))
  = Raise (TypeError "A Literal can only have one of lang or datatype").
Proof.
  intros K. unfold default_cast. cbn [expr iri].
  rewrite String.eqb_refl, K. reflexivity.
Qed.

Lemma STRBEFORE_STRAFTER_examples :
  Builtin_STRBEFORE (terms := string_TermLib)
    (TLiteral abc_en) (TLiteral (plain "b"))
  = Ok (TLiteral {| lexical := "a"; language := Some "en";
                    datatype := None; value := Some (PyStr "a") |})
  /\ Builtin_STRAFTER (terms := string_TermLib)
       (TLiteral abc_en) (TLiteral (plain "b"))
     = Ok (TLiteral {| lexical := "c"; language := Some "en";
                       datatype := None; value := Some (PyStr "c") |})
  /\ Builtin_STRBEFORE (terms := string_TermLib)
       (TLiteral abc_en) (TLiteral (plain "x"))
     = Ok (TLiteral (plain ""))
  /\ Builtin_STRAFTER (terms := string_TermLib)
       (TLiteral abc_en) (TLiteral (plain "x"))
     = Ok (TLiteral (plain "")).
Proof. repeat split. Qed.

(** * Properties of the further operators *)

(** ** Disjunction *)

Lemma EBV_raises_SPARQLError x e :
  EBV x = Raise e -> is_SPARQLError e = true.
Proof.
  destruct x as [u | i | l | n | e' | ]; simpl; try (intros [= <-]; reflexivity).
  destruct (dt_is (datatype l) XSD.boolean); [discriminate |].
  destruct (dt_is (datatype l) XSD.string || negb (is_Some_b (datatype l)));
    [discriminate |].
  destruct (toPython l); [discriminate |]. now intros [= <-].
Qed.

Lemma or_scan_spec xs error :
  or_scan xs error =
    if existsb EBV_is_true xs then Ok (TLiteral (Literal_bool true))
    else match last (option_list error ++ EBV_errors xs) with
         | Some e => Raise e
         | None => Ok (TLiteral (Literal_bool false))
         end.
Proof.
  revert error. induction xs as [| x xs IH]; intros error.
  - simpl. rewrite app_nil_r. destruct error; reflexivity.
  - simpl. unfold EBV_is_true at 1.
    destruct (EBV x) as [b | e] eqn:E.
    + destruct (truth b); [reflexivity | apply IH].
    + rewrite (EBV_raises_SPARQLError x e E), IH. simpl.
      destruct (existsb EBV_is_true xs); [reflexivity |].
      destruct error; reflexivity.
Qed.

(** X1.  The disjunction is true when the EBV of some operand is true,
    wherever that operand stands and whatever the other operands raise;
    when none is true it raises the last error an EBV raised, and is
    false when none raised. *)
Theorem OR_true_overrides_errors expr other :
  ConditionalOrExpression expr (Some other) =
    if existsb EBV_is_true (expr :: other)
    then Ok (TLiteral (Literal_bool true))
    else match last (EBV_errors (expr :: other)) with
         | Some e => Raise e
         | None => Ok (TLiteral (Literal_bool false))
         end.
Proof. unfold ConditionalOrExpression. now rewrite or_scan_spec. Qed.

(** ** [COALESCE] *)

(** The loop over a list of arguments. *)
Lemma COALESCE_scan arg :
  (forall v,
     Builtin_COALESCE arg = Ok v <->
     exists pre post,
       arg = (pre ++ v :: post)%list
       /\ forallb passed_over pre = true /\ passed_over v = false)
  /\ ((exists e, Builtin_COALESCE arg = Raise e)
      <-> forallb passed_over arg = true).
Proof.
  induction arg as [| x arg [IHv IHe]]; split.
  - intros v. split; [discriminate |].
    intros (pre & post & E & _). now destruct pre.
  - split; [reflexivity | intros _; eexists; reflexivity].
  - intros v. cbn [Builtin_COALESCE]. destruct (passed_over x) eqn:P.
    + rewrite IHv. split.
      * intros (pre & post & -> & F & N).
        exists (x :: pre), post. simpl. now rewrite P, F.
      * intros (pre & post & E & F & N).
        destruct pre as [| p pre]; simpl in E; injection E as <- ->.
        -- congruence.
        -- simpl in F. apply andb_prop in F as [_ F]. now exists pre, post.
    + split.
      * intros [= <-]. now exists [], arg.
      * intros (pre & post & E & F & N).
        destruct pre as [| p pre]; simpl in E; injection E as <- ->.
        -- reflexivity.
        -- simpl in F. rewrite P in F. discriminate.
  - cbn [Builtin_COALESCE forallb]. destruct (passed_over x) eqn:P.
    + exact IHe.
    + split; [intros [e E]; discriminate | discriminate].
Qed.

(** X2.  Given arguments, [COALESCE] returns the first of them that is
    not [None], an unbound variable or an error, and raises exactly when
    there is none. *)
Theorem COALESCE_first_usable arg :
  arg <> [] ->
  (forall v,
     Builtin_COALESCE arg = Ok v <->
     exists pre post,
       arg = (pre ++ v :: post)%list
       /\ forallb passed_over pre = true /\ passed_over v = false)
  /\ ((exists e, Builtin_COALESCE arg = Raise e)
      <-> forallb passed_over arg = true).
Proof. intros _. apply COALESCE_scan. Qed.

Lemma COALESCE_first_usable_witness :
  [TVariable "x"; TError error1; TLiteral five; TLiteral six] <> []
  /\ Builtin_COALESCE
       [TVariable "x"; TError error1; TLiteral five; TLiteral six]
     = Ok (TLiteral five).
Proof.
  split; [discriminate |].
  apply (proj1 (COALESCE_first_usable
                  [TVariable "x"; TError error1; TLiteral five; TLiteral six]
                  ltac:(discriminate))).
  exists [TVariable "x"; TError error1], [TLiteral six].
  repeat split.
Defined.

(** ** Term tests *)

(** X3.  [isNUMERIC] looks at the datatype only: a literal of a numeric
    datatype whose lexical form could not be converted is numeric for
    it, while [CEIL] and [FLOOR] raise a [TypeError] on that literal. *)
Theorem isNUMERIC_ill_formed l :
  dt_in (datatype l) numeric_datatypes = true ->
  value l = None ->
  Builtin_isNUMERIC (TLiteral l) = Ok (TLiteral (Literal_bool true))
  /\ Builtin_CEIL (TLiteral l) = Raise (TypeError "must be real number")
  /\ Builtin_FLOOR (TLiteral l) = Raise (TypeError "must be real number").
Proof.
  intros D V.
  unfold Builtin_isNUMERIC, Builtin_CEIL, Builtin_FLOOR, numeric, toPython.
  now rewrite D, V.
Qed.

Lemma isNUMERIC_ill_formed_witness :
  (dt_in (datatype (mkLiteral "abc" None (Some XSD.integer) None))
     numeric_datatypes = true
   /\ value (mkLiteral "abc" None (Some XSD.integer) None) = None)
  /\ Builtin_isNUMERIC
       (TLiteral (mkLiteral "abc" None (Some XSD.integer) None))
     = Ok (TLiteral (Literal_bool true)).
Proof.
  split; [split; reflexivity |].
  exact (proj1 (isNUMERIC_ill_formed
                  (mkLiteral "abc" None (Some XSD.integer) None)
                  eq_refl eq_refl)).
Defined.

(** [isNUMERIC] never raises, and answers as [numeric] does. *)
Lemma isNUMERIC_by_datatype arg :
  Builtin_isNUMERIC arg
  = Ok (TLiteral (Literal_bool
                    match arg with
                    | TLiteral l => dt_in (datatype l) numeric_datatypes
                    | _ => false
                    end)).
Proof.
  destruct arg as [u | i | l | n | e | ]; try reflexivity.
  unfold Builtin_isNUMERIC, numeric.
  now destruct (dt_in (datatype l) numeric_datatypes).
Qed.

(** ** Negation and [IF] *)

Lemma EBV_Literal_bool b :
  EBV (TLiteral (Literal_bool b)) = Ok (Native (PyBool b)).
Proof. reflexivity. Qed.

(** X4.  When the negation of a condition returns, it is a boolean
    literal; [IF] on it chooses the other branch than [IF] on the
    condition, and negating it again gives the truth value of the
    condition. *)
Theorem IF_NOT_swaps_branches c negated a b :
  UnaryNot c = Ok negated ->
  Builtin_IF negated a b = Builtin_IF c b a
  /\ exists t,
       EBV c = Ok t
       /\ negated = TLiteral (Literal_bool (negb (truth t)))
       /\ UnaryNot negated = Ok (TLiteral (Literal_bool (truth t))).
Proof.
  unfold UnaryNot, Builtin_IF. intros N.
  destruct (EBV c) as [t | e]; [| discriminate].
  simpl in N. injection N as <-. rewrite !EBV_Literal_bool. simpl. split.
  - now destruct (truth t).
  - exists t. now rewrite negb_involutive.
Qed.

Lemma IF_NOT_swaps_branches_witness :
  UnaryNot (TLiteral five) = Ok (TLiteral (Literal_bool false))
  /\ Builtin_IF (TLiteral (Literal_bool false)) (TLiteral five) (TLiteral six)
     = Builtin_IF (TLiteral five) (TLiteral six) (TLiteral five).
Proof.
  split; [reflexivity |].
  exact (proj1 (IF_NOT_swaps_branches (TLiteral five)
                  (TLiteral (Literal_bool false)) (TLiteral five)
                  (TLiteral six) eq_refl)).
Defined.

(** ** Substring tests *)

Lemma take_drop n a : (Str.take n a ++ Str.drop n a)%string = a.
Proof.
  revert a. induction n as [| n IH]; intros a; [reflexivity |].
  destruct a as [| c a]; [reflexivity |].
  cbn [Str.take Str.drop]. rewrite append_cons. now f_equal.
Qed.

Lemma append_nil_r (a : string) : (a ++ "")%string = a.
Proof.
  induction a as [| c a IH]; [reflexivity |].
  rewrite append_cons. now f_equal.
Qed.

Lemma endswith_spec a b :
  Str.endswith a b = true <-> exists pre, a = (pre ++ b)%string.
Proof.
  unfold Str.endswith. rewrite andb_true_iff, Nat.leb_le, String.eqb_eq.
  split.
  - intros [_ E]. exists (Str.take (String.length a - String.length b) a).
    pose proof (take_drop (String.length a - String.length b) a) as T.
    rewrite E in T. now symmetry.
  - intros [pre ->]. rewrite length_append. split; [lia |].
    replace (String.length pre + String.length b - String.length b)%nat
      with (String.length pre) by lia.
    apply drop_prefix.
Qed.

Lemma contains_find a b :
  contains a b = negb (Str.find a b =? -1).
Proof.
  induction a as [| c a IH]; cbn [contains Str.find].
  - now destruct (Str.startswith "" b).
  - destruct (Str.startswith (String c a) b); [reflexivity |].
    rewrite IH. simpl. destruct (Str.find a b =? -1) eqn:F; [reflexivity |].
    apply Z.eqb_neq in F. destruct (find_found a b F) as [N _].
    simpl. symmetry. apply negb_true_iff, Z.eqb_neq. lia.
Qed.

Lemma contains_spec a b : contains a b = true <-> occurs b a.
Proof.
  rewrite contains_find, negb_true_iff, Z.eqb_neq. split.
  - intros F. destruct (find_found a b F) as (_ & pre & post & E & _).
    now exists pre, post.
  - intros O F. now apply find_absent in F.
Qed.

(** X5.  On string-compatible literals [CONTAINS], [STRSTARTS] and
    [STRENDS] return booleans: [CONTAINS] is true exactly when the
    second string occurs in the first, [STRSTARTS] when the first is the
    second followed by something, [STRENDS] when it is something
    followed by the second; a true [STRSTARTS] or [STRENDS] makes
    [CONTAINS] true. *)
Theorem CONTAINS_STRSTARTS_STRENDS_spec a b :
  _compatibleStrings (TLiteral a) (TLiteral b) = Ok tt ->
  exists c s e,
    Builtin_CONTAINS (TLiteral a) (TLiteral b) = Ok (TLiteral (Literal_bool c))
    /\ Builtin_STRSTARTS (TLiteral a) (TLiteral b)
       = Ok (TLiteral (Literal_bool s))
    /\ Builtin_STRENDS (TLiteral a) (TLiteral b)
       = Ok (TLiteral (Literal_bool e))
    /\ (c = true <-> occurs (lexical b) (lexical a))
    /\ (s = true <-> exists post, lexical a = (lexical b ++ post)%string)
    /\ (e = true <-> exists pre, lexical a = (pre ++ lexical b)%string)
    /\ (s = true -> c = true) /\ (e = true -> c = true).
Proof.
  intros C. destruct (compatible_are_strings a b C) as [Sa Sb].
  unfold Builtin_CONTAINS, Builtin_STRSTARTS, Builtin_STRENDS.
  rewrite C, Sa, Sb. cbn [bind].
  eexists _, _, _. repeat split; try reflexivity.
  - now apply contains_spec.
  - now apply contains_spec.
  - now apply startswith_spec.
  - now apply startswith_spec.
  - now apply endswith_spec.
  - now apply endswith_spec.
  - intros S. apply contains_spec. apply startswith_spec in S as [post E].
    exists "", post. now rewrite E.
  - intros S. apply contains_spec. apply endswith_spec in S as [pre E].
    exists pre, "". now rewrite append_nil_r.
Qed.

Lemma CONTAINS_STRSTARTS_STRENDS_spec_witness :
  _compatibleStrings (TLiteral abc_en) (TLiteral (plain "bc")) = Ok tt
  /\ exists c s e,
       Builtin_CONTAINS (TLiteral abc_en) (TLiteral (plain "bc"))
       = Ok (TLiteral (Literal_bool c))
       /\ Builtin_STRSTARTS (TLiteral abc_en) (TLiteral (plain "bc"))
          = Ok (TLiteral (Literal_bool s))
       /\ Builtin_STRENDS (TLiteral abc_en) (TLiteral (plain "bc"))
          = Ok (TLiteral (Literal_bool e))
       /\ (c = true <-> occurs "bc" "abc")
       /\ (s = true <-> exists post, "abc" = ("bc" ++ post)%string)
       /\ (e = true <-> exists pre, "abc" = (pre ++ "bc")%string)
       /\ (s = true -> c = true) /\ (e = true -> c = true).
Proof.
  split; [reflexivity |].
  exact (CONTAINS_STRSTARTS_STRENDS_spec abc_en (plain "bc") eq_refl).
Defined.

(** ** Case, [STR], [STRLANG] *)

Lemma lower_char_idempotent c : lower_char (lower_char c) = lower_char c.
Proof. destruct c as [[] [] [] [] [] [] [] []]; reflexivity. Qed.

Lemma lower_idempotent s : lower (lower s) = lower s.
Proof.
  induction s as [| c s IH]; [reflexivity |].
  simpl. now rewrite lower_char_idempotent, IH.
Qed.

Lemma length_lower s : String.length (lower s) = String.length s.
Proof. induction s as [| c s IH]; [reflexivity | simpl; now f_equal]. Qed.

Lemma string_of_string_literal l :
  is_string_literal l = true -> string_ (TLiteral l) = Ok l.
Proof.
  unfold is_string_literal, string_. intros S.
  apply negb_true_iff in S. now rewrite S.
Qed.

Section CaseAndLanguage.
Context {terms : TermLib}.

(** X6.  On a well-formed string literal [LCASE] keeps language and
    datatype, and applying it to its result changes nothing.  It keeps
    the length of a lexical form of ASCII characters; beyond them a
    lower-case form can be longer, as that of U+0130 is. *)
Theorem LCASE_idempotent l :
  is_string_literal l = true -> well_formed l = true ->
  exists r,
    Builtin_LCASE (TLiteral l) = Ok (TLiteral r)
    /\ Builtin_LCASE (TLiteral r) = Ok (TLiteral r)
    /\ language r = language l /\ datatype r = datatype l
    /\ (all_chars is_ascii (lexical l) = true ->
        Builtin_STRLEN (TLiteral r) = Builtin_STRLEN (TLiteral l)).
Proof.
  intros S W. unfold Builtin_LCASE, Builtin_STRLEN.
  rewrite (string_of_string_literal l S). cbn [bind].
  rewrite (Literal_str_well_formed l _ W). cbn [bind].
  eexists. split; [reflexivity |].
  set (r := {| lexical := lower (lexical l); language := language l;
               datatype := datatype l;
               value := _castLexicalToPython (lower (lexical l))
                          (datatype l) |}).
  assert (Sr : is_string_literal r = true) by exact S.
  assert (Wr : well_formed r = true) by exact W.
  rewrite (string_of_string_literal r Sr). cbn [bind].
  rewrite (Literal_str_well_formed r _ Wr). cbn [bind].
  repeat split.
  - subst r. cbn [lexical language datatype]. now rewrite lower_idempotent.
  - intros _. subst r. cbn [lexical]. unfold Str.len.
    now rewrite length_lower.
Qed.

(** X7.  [STR] of anything but an error is a plain literal, without
    language or datatype, that [STR] leaves unchanged; its datatype is
    [xsd:string] and its language the empty string. *)
Theorem STR_plain_and_idempotent arg s :
  str_of arg = Some s ->
  exists l,
    Builtin_STR arg = Ok (TLiteral l)
    /\ lexical l = s /\ language l = None /\ datatype l = None
    /\ Builtin_STR (TLiteral l) = Ok (TLiteral l)
    /\ Builtin_DATATYPE (TLiteral l) = Ok (TURIRef XSD.string)
    /\ exists empty,
         Builtin_LANG (TLiteral l) = Ok (TLiteral empty)
         /\ lexical empty = "".
Proof.
  intros E.
  destruct arg as [u | i | l | n | e | ]; simpl in E; try discriminate;
    injection E as <-;
    (eexists; split; [reflexivity |]);
    repeat split; eexists; split; reflexivity.
Qed.

(** X8.  [STRLANG] returns only for a literal that has neither a
    language nor a datatype; on a literal that [string()] accepts and
    that has one of them, a literal typed [xsd:string] included, it
    raises its error. *)
Theorem STRLANG_simple_literals_only arg1 arg2_str :
  (forall r,
     Builtin_STRLANG arg1 arg2_str = Ok r ->
     exists l,
       arg1 = TLiteral l
       /\ truthy (language l) = false /\ truthy (datatype l) = false)
  /\ (forall l,
        arg1 = TLiteral l -> is_string_literal l = true ->
        truthy (language l) || truthy (datatype l) = true ->
        Builtin_STRLANG arg1 arg2_str
        = Raise (SPARQLError "STRLANG expects a simple literal")).
Proof.
  unfold Builtin_STRLANG. split.
  - intros r E. destruct arg1 as [u | i | l | n | e | ]; try discriminate.
    exists l. split; [reflexivity |].
    unfold string_ in E.
    destruct (truthy (datatype l)) eqn:D;
      destruct (dt_is (datatype l) XSD.string);
      destruct (truthy (language l)) eqn:L;
      simpl in E; rewrite ?D, ?L in E; simpl in E;
      try discriminate; now split.
  - intros l -> S T. rewrite (string_of_string_literal l S).
    cbn [bind]. now rewrite T.
Qed.

(** X9.  The language tag [STRLANG] attaches is its second argument in
    lower case: when it is not empty, [LANG] of the result returns it
    and [DATATYPE] of the result is [rdf:langString]. *)
Theorem LANG_DATATYPE_of_STRLANG l arg2_str r :
  Builtin_STRLANG (TLiteral l) arg2_str = Ok (TLiteral r) ->
  lower arg2_str <> "" ->
  lexical r = lexical l
  /\ language r = Some (lower arg2_str)
  /\ Builtin_DATATYPE (TLiteral r) = Ok (TURIRef RDF_langString)
  /\ exists tag,
       Builtin_LANG (TLiteral r) = Ok (TLiteral tag)
       /\ lexical tag = lower arg2_str
       /\ language tag = None /\ datatype tag = None.
Proof.
  unfold Builtin_STRLANG. intros E N.
  destruct (string_ (TLiteral l)) as [s |] eqn:S; [| discriminate].
  unfold string_ in S.
  destruct (truthy (datatype l) && negb (dt_is (datatype l) XSD.string));
    [discriminate |].
  injection S as <-. cbn [bind] in E.
  destruct (truthy (language l) || truthy (datatype l)); [discriminate |].
  apply String.eqb_neq in N.
  unfold Literal_str, truthy in E. rewrite N in E. cbn in E.
  injection E as <-. cbn [lexical language].
  split; [reflexivity |]. split; [reflexivity |].
  unfold Builtin_DATATYPE, Builtin_LANG, truthy.
  cbn [literal bind language]. rewrite N. cbn [negb default].
  split; [reflexivity |]. eexists. repeat split.
Qed.

End CaseAndLanguage.

Lemma LCASE_idempotent_witness :
  (is_string_literal hello_en = true /\ well_formed hello_en = true
   /\ all_chars is_ascii (lexical hello_en) = true)
  /\ exists r,
       Builtin_LCASE (terms := string_TermLib) (TLiteral hello_en)
       = Ok (TLiteral r)
       /\ Builtin_LCASE (terms := string_TermLib) (TLiteral r)
          = Ok (TLiteral r)
       /\ language r = language hello_en /\ datatype r = datatype hello_en
       /\ Builtin_STRLEN (TLiteral r) = Builtin_STRLEN (TLiteral hello_en).
Proof.
  split; [repeat split |].
  destruct (LCASE_idempotent (terms := string_TermLib) hello_en
              eq_refl eq_refl) as (r & H1 & H2 & H3 & H4 & H5).
  exists r. repeat split; try assumption. exact (H5 eq_refl).
Defined.

Lemma STR_plain_and_idempotent_witness :
  str_of (TLiteral hello_en) = Some "Hello"
  /\ exists l,
       Builtin_STR (terms := string_TermLib) (TLiteral hello_en)
       = Ok (TLiteral l)
       /\ lexical l = "Hello" /\ language l = None /\ datatype l = None
       /\ Builtin_STR (terms := string_TermLib) (TLiteral l)
          = Ok (TLiteral l)
       /\ Builtin_DATATYPE (TLiteral l) = Ok (TURIRef XSD.string)
       /\ exists empty,
            Builtin_LANG (terms := string_TermLib) (TLiteral l)
            = Ok (TLiteral empty)
            /\ lexical empty = "".
Proof.
  split; [reflexivity |].
  exact (STR_plain_and_idempotent (terms := string_TermLib)
           (TLiteral hello_en) "Hello" eq_refl).
Defined.

Lemma LANG_DATATYPE_of_STRLANG_witness :
  (Builtin_STRLANG (terms := string_TermLib) (TLiteral (plain "chat")) "FR"
   = Ok (TLiteral (mkLiteral "chat" (Some "fr") None (Some (PyStr "chat"))))
   /\ lower "FR" <> "")
  /\ Builtin_DATATYPE
       (TLiteral (mkLiteral "chat" (Some "fr") None (Some (PyStr "chat"))))
     = Ok (TURIRef RDF_langString).
Proof.
  split; [split; [reflexivity | discriminate] |].
  exact (proj1 (proj2 (proj2
    (LANG_DATATYPE_of_STRLANG (terms := string_TermLib) (plain "chat") "FR"
       (mkLiteral "chat" (Some "fr") None (Some (PyStr "chat")))
       eq_refl ltac:(discriminate))))).
Defined.

(** ** [SUBSTR] *)

Lemma take_nil n : Str.take n "" = "".
Proof. now destruct n. Qed.

Lemma drop_nil n : Str.drop n "" = "".
Proof. now destruct n. Qed.

Lemma drop_take i j a :
  Str.drop i (Str.take j a) = Str.take (j - i) (Str.drop i a).
Proof.
  revert j a. induction i as [| i IH]; intros j a.
  - now rewrite Nat.sub_0_r.
  - destruct a as [| c a]; [now rewrite take_nil, !drop_nil, take_nil |].
    destruct j as [| j]; [reflexivity |]. apply IH.
Qed.

Lemma take_all n a : (String.length a <= n)%nat -> Str.take n a = a.
Proof.
  revert a. induction n as [| n IH]; intros [| c a] L; simpl in *;
    try reflexivity; [lia | f_equal; apply IH; lia].
Qed.

Lemma drop_all n a : (String.length a <= n)%nat -> Str.drop n a = "".
Proof.
  revert a. induction n as [| n IH]; intros [| c a] L; simpl in *;
    try reflexivity; [lia | apply IH; lia].
Qed.

Lemma length_take n a : (String.length (Str.take n a) <= String.length a)%nat.
Proof.
  revert a. induction n as [| n IH]; intros [| c a]; simpl; try lia.
  specialize (IH a). lia.
Qed.

Lemma length_drop n a :
  String.length (Str.drop n a) = (String.length a - n)%nat.
Proof.
  revert a. induction n as [| n IH]; intros [| c a]; simpl; try lia.
  apply IH.
Qed.

Lemma clamp_nonneg a i :
  0 <= i -> Str.clamp a i = Nat.min (Z.to_nat i) (String.length a).
Proof.
  intros N. unfold Str.clamp, Str.len.
  destruct (i <? 0) eqn:E; [apply Z.ltb_lt in E; lia |]. lia.
Qed.

Lemma take_min j a :
  Str.take (Nat.min j (String.length a)) a = Str.take j a.
Proof.
  destruct (Nat.le_ge_cases j (String.length a)) as [L | L].
  - now rewrite Nat.min_l.
  - rewrite Nat.min_r by exact L. now rewrite !take_all.
Qed.

Lemma drop_min i j a :
  Str.drop (Nat.min i (String.length a)) (Str.take j a)
  = Str.drop i (Str.take j a).
Proof.
  destruct (Nat.le_ge_cases i (String.length a)) as [L | L].
  - now rewrite Nat.min_l.
  - rewrite Nat.min_r by exact L. pose proof (length_take j a).
    rewrite !drop_all; [reflexivity | lia | lia].
Qed.

(** A slice between two indices that are not negative. *)
Lemma slice_between a i j :
  0 <= i -> 0 <= j ->
  slice a i (Some j)
  = Str.take (Z.to_nat j - Z.to_nat i) (Str.drop (Z.to_nat i) a).
Proof.
  intros I J. unfold slice. rewrite !clamp_nonneg by assumption.
  now rewrite take_min, drop_min, drop_take.
Qed.

Lemma slice_from_index a i :
  0 <= i -> slice a i None = Str.drop (Z.to_nat i) a.
Proof.
  intros I. unfold slice. rewrite clamp_nonneg by assumption.
  rewrite (take_all _ a) by lia.
  destruct (Nat.le_ge_cases (Z.to_nat i) (String.length a)) as [L | L].
  - now rewrite Nat.min_l.
  - rewrite Nat.min_r by exact L. now rewrite !drop_all.
Qed.

(** A slice from a negative index counts from the end. *)
Lemma slice_from_end a k :
  0 < k <= Str.len a ->
  slice a (- k) None = Str.drop (String.length a - Z.to_nat k) a.
Proof.
  intros K. unfold slice, Str.clamp, Str.len in *.
  destruct (- k <? 0) eqn:E; [| apply Z.ltb_ge in E; lia].
  rewrite (take_all _ a) by lia. f_equal. lia.
Qed.

Section Substring.
Context {lib : PyLib} {terms : TermLib}.
Variables (a start length : Literal) (s n : Z).
Hypothesis Ha : is_string_literal a = true.
Hypothesis Wa : well_formed a = true.
Hypothesis Ds : dt_in (datatype start) numeric_datatypes = true.
Hypothesis Vs : value start = Some (PyInt s).

Lemma SUBSTR_steps len :
  Builtin_SUBSTR (TLiteral a) (TLiteral start) len
  = (let* stop :=
       match len with
       | TNone => Ok None
       | _ => let* m := numeric len in
              let* stop := add_objects m (PyInt (s - 1)) in
              Ok (Some stop)
       end in
     let* j := match stop with
               | None => Ok None
               | Some stop => let* j := slice_index stop in Ok (Some j)
               end in
     Ok (TLiteral {| lexical := slice (lexical a) (s - 1) j;
                     language := language a; datatype := datatype a;
                     value := _castLexicalToPython
                                (slice (lexical a) (s - 1) j)
                                (datatype a) |})).
Proof.
  unfold Builtin_SUBSTR. rewrite (string_of_string_literal a Ha).
  cbn [bind]. unfold numeric at 1, toPython. rewrite Ds, Vs.
  cbn [negb bind minus_one as_int].
  destruct (match len with TNone => Ok None | _ => _ end) as [stop |];
    [| reflexivity].
  cbn [bind slice_index as_int].
  destruct (match stop with None => Ok None | Some _ => _ end) as [j |];
    [| reflexivity].
  cbn [bind]. now rewrite (Literal_str_well_formed a _ Wa).
Qed.

(** X10.  With an integer start of at least 1 and an integer length
    that is not negative, [SUBSTR] skips [start - 1] characters and
    takes [length] of the rest; without a length it takes all the rest.
    The result keeps language and datatype of the string. *)
Theorem SUBSTR_in_range :
  dt_in (datatype length) numeric_datatypes = true ->
  value length = Some (PyInt n) ->
  1 <= s -> 0 <= n ->
  exists r r',
    Builtin_SUBSTR (TLiteral a) (TLiteral start) (TLiteral length)
    = Ok (TLiteral r)
    /\ lexical r
       = Str.take (Z.to_nat n) (Str.drop (Z.to_nat (s - 1)) (lexical a))
    /\ language r = language a /\ datatype r = datatype a
    /\ Builtin_SUBSTR (TLiteral a) (TLiteral start) TNone = Ok (TLiteral r')
    /\ lexical r' = Str.drop (Z.to_nat (s - 1)) (lexical a)
    /\ language r' = language a /\ datatype r' = datatype a.
Proof.
  intros Dl Vl S N. rewrite !SUBSTR_steps.
  unfold numeric, toPython. rewrite Dl, Vl.
  cbn [negb bind add_objects as_int slice_index].
  eexists _, _. repeat split; cbn [lexical].
  - rewrite slice_between by lia. f_equal. lia.
  - apply slice_from_index. lia.
Qed.

(** X11.  A start that is not positive is not clipped to the beginning of
    the string: the index [start - 1] is negative and counts from the
    end, so that without a length [SUBSTR] returns the last [1 - start]
    characters, the last character for a start of 0. *)
Theorem SUBSTR_start_counts_from_end :
  s <= 0 -> 1 - s <= Str.len (lexical a) ->
  exists r pre,
    Builtin_SUBSTR (TLiteral a) (TLiteral start) TNone = Ok (TLiteral r)
    /\ lexical a = (pre ++ lexical r)%string
    /\ Str.len (lexical r) = 1 - s.
Proof.
  intros S L. rewrite SUBSTR_steps. cbn [bind].
  eexists _, _. split; [reflexivity |]. cbn [lexical].
  replace (s - 1) with (- (1 - s)) by lia.
  rewrite slice_from_end by lia. split.
  - symmetry. apply take_drop.
  - unfold Str.len in *. rewrite length_drop. lia.
Qed.

End Substring.

Lemma SUBSTR_in_range_witness :
  (is_string_literal abc_en = true /\ well_formed abc_en = true
   /\ dt_in (datatype (int_literal 2)) numeric_datatypes = true
   /\ value (int_literal 2) = Some (PyInt 2)
   /\ dt_in (datatype (int_literal 1)) numeric_datatypes = true
   /\ value (int_literal 1) = Some (PyInt 1)
   /\ 1 <= 2 /\ 0 <= 1)
  /\ exists r r',
       Builtin_SUBSTR (lib := no_PyLib) (terms := string_TermLib)
         (TLiteral abc_en) (TLiteral (int_literal 2))
         (TLiteral (int_literal 1)) = Ok (TLiteral r)
       /\ lexical r = "b"
       /\ language r = Some "en" /\ datatype r = None
       /\ Builtin_SUBSTR (lib := no_PyLib) (terms := string_TermLib)
            (TLiteral abc_en) (TLiteral (int_literal 2)) TNone
          = Ok (TLiteral r')
       /\ lexical r' = "bc"
       /\ language r' = Some "en" /\ datatype r' = None.
Proof.
  split; [repeat split; lia |].
  exact (SUBSTR_in_range (lib := no_PyLib) (terms := string_TermLib)
           abc_en (int_literal 2) (int_literal 1) 2 1
           eq_refl eq_refl eq_refl eq_refl eq_refl eq_refl
           ltac:(lia) ltac:(lia)).
Defined.

Lemma SUBSTR_start_counts_from_end_witness :
  (is_string_literal abc_en = true /\ well_formed abc_en = true
   /\ dt_in (datatype (int_literal 0)) numeric_datatypes = true
   /\ value (int_literal 0) = Some (PyInt 0)
   /\ 0 <= 0 /\ 1 - 0 <= Str.len (lexical abc_en))
  /\ exists r pre,
       Builtin_SUBSTR (lib := no_PyLib) (terms := string_TermLib)
         (TLiteral abc_en) (TLiteral (int_literal 0)) TNone
       = Ok (TLiteral r)
       /\ "abc" = (pre ++ lexical r)%string
       /\ Str.len (lexical r) = 1 - 0.
Proof.
  split; [repeat split; vm_compute; congruence |].
  exact (SUBSTR_start_counts_from_end (lib := no_PyLib)
           (terms := string_TermLib) abc_en (int_literal 0) 0
           eq_refl eq_refl eq_refl eq_refl
           ltac:(lia) ltac:(vm_compute; congruence)).
Defined.

Lemma SUBSTR_examples :
  Builtin_SUBSTR (lib := no_PyLib) (terms := string_TermLib)
    (TLiteral (plain "abc")) (TLiteral (int_literal 0)) TNone
  = Ok (TLiteral (plain "c"))
  /\ Builtin_SUBSTR (lib := no_PyLib) (terms := string_TermLib)
       (TLiteral (plain "abc")) (TLiteral (int_literal 1)) TNone
     = Ok (TLiteral (plain "abc")).
Proof. split; reflexivity. Qed.

(** ** [CONCAT] *)

(** The set of the slots has one member exactly when the list is not
    empty and all its slots are that member. *)
Lemma pop_if_single_spec (xs : list (option string)) v :
  pop_if_single (list_to_set xs) = Some v
  <-> xs <> [] /\ Forall (fun x => x = Some v) xs.
Proof.
  unfold pop_if_single. split.
  - destruct (size (list_to_set xs : gset (option string)) =? 1)%nat eqn:S;
      [| discriminate].
    apply Nat.eqb_eq in S. intros H.
    destruct (size_1_elem_of _ S) as [x Ex].
    apply leibniz_equiv in Ex. rewrite Ex, elements_singleton in H.
    simpl in H. subst x. split.
    + intros ->. rewrite list_to_set_nil in S.
      now rewrite size_empty in S.
    + apply Forall_forall. intros y Hy.
      assert (M : y ∈ (list_to_set xs : gset (option string)))
        by (apply elem_of_list_to_set, Hy).
      rewrite Ex in M. now apply elem_of_singleton in M.
  - intros [N F].
    assert (E : (list_to_set xs : gset (option string)) = {[ Some v ]}).
    { apply set_eq. intros y. rewrite elem_of_list_to_set, elem_of_singleton.
      split.
      - intros M. now apply (proj1 (Forall_forall _ _) F).
      - intros ->. destruct xs as [| x xs]; [congruence |].
        inversion F; subst. apply list_elem_of_here. }
    rewrite E, size_singleton, elements_singleton. reflexivity.
Qed.

Lemma mapM_literal_of ls : mapM literal_of (map TLiteral ls) = Ok ls.
Proof.
  induction ls as [| l ls IH]; [reflexivity |].
  simpl. now rewrite IH.
Qed.

Lemma mapM_string_ ls :
  Forall (fun l => is_string_literal l = true) ls ->
  mapM string_ (map TLiteral ls) = Ok ls.
Proof.
  induction 1 as [| l ls S _ IH]; [reflexivity |].
  cbn [map mapM]. rewrite (string_of_string_literal l S), IH. reflexivity.
Qed.

(** X12.  [CONCAT] of one or more well-formed string literals returns
    the concatenation of their lexical forms; the result has a language
    tag exactly when all arguments have that tag, and likewise for the
    datatype. *)
Theorem CONCAT_keeps_shared_language {terms : TermLib} ls :
  ls <> [] ->
  Forall (fun l => is_string_literal l = true) ls ->
  Forall (fun l => well_formed l = true) ls ->
  exists r,
    Builtin_CONCAT (map TLiteral ls) = Ok (TLiteral r)
    /\ lexical r = String.concat "" (map lexical ls)
    /\ (forall t, language r = Some t
                  <-> Forall (fun l => language l = Some t) ls)
    /\ (forall d, datatype r = Some d
                  <-> Forall (fun l => datatype l = Some d) ls).
Proof.
  intros NE S W. unfold Builtin_CONCAT.
  rewrite mapM_literal_of, (mapM_string_ ls S). cbn [bind].
  set (lang := pop_if_single (list_to_set (map language ls))).
  set (dt := pop_if_single (list_to_set (map datatype ls))).
  assert (Hl : forall t, lang = Some t
                 <-> ls <> [] /\ Forall (fun l => language l = Some t) ls).
  { intros t. unfold lang. rewrite pop_if_single_spec, Forall_map.
    split; intros [N F]; (split; [| exact F]).
    - intros ->. now apply N.
    - now destruct ls. }
  assert (Hd : forall d, dt = Some d
                 <-> ls <> [] /\ Forall (fun l => datatype l = Some d) ls).
  { intros d. unfold dt. rewrite pop_if_single_spec, Forall_map.
    split; intros [N F]; (split; [| exact F]).
    - intros ->. now apply N.
    - now destruct ls. }
  assert (C : Literal_str (String.concat "" (map lexical ls)) lang dt
              = Ok {| lexical := String.concat "" (map lexical ls);
                      language := lang; datatype := dt;
                      value := _castLexicalToPython
                                 (String.concat "" (map lexical ls)) dt |}).
  { unfold Literal_str. destruct lang as [t |] eqn:L; [| reflexivity].
    destruct (proj1 (Hl t) eq_refl) as [N F].
    destruct ls as [| l ls']; [congruence |].
    inversion F as [| ? ? Fl _]; inversion W as [| ? ? Wl _]; subst.
    unfold well_formed in Wl. rewrite Fl in Wl.
    apply andb_prop in Wl as [W1 W2].
    apply negb_true_iff in W1, W2. apply bool_decide_eq_false in W2.
    assert (T : truthy (Some t) = true).
    { simpl. apply negb_true_iff, String.eqb_neq. congruence. }
    rewrite T. cbn [is_Some_b andb].
    destruct dt as [d |] eqn:D; [| reflexivity].
    destruct (proj1 (Hd d) eq_refl) as [_ Fd].
    inversion Fd as [| ? ? Fdl _]; subst. rewrite Fdl in W1. discriminate. }
  rewrite C. cbn [bind]. eexists. split; [reflexivity |].
  split; [reflexivity |]. cbn [language datatype].
  split; [intros t; rewrite (Hl t) | intros d; rewrite (Hd d)]; tauto.
Qed.

Lemma CONCAT_keeps_shared_language_witness :
  ([abc_en; hello_en] <> []
   /\ Forall (fun l => is_string_literal l = true) [abc_en; hello_en]
   /\ Forall (fun l => well_formed l = true) [abc_en; hello_en])
  /\ exists r,
       Builtin_CONCAT (terms := string_TermLib)
         (map TLiteral [abc_en; hello_en]) = Ok (TLiteral r)
       /\ lexical r = String.concat "" (map lexical [abc_en; hello_en])
       /\ (forall t, language r = Some t
                     <-> Forall (fun l => language l = Some t)
                           [abc_en; hello_en])
       /\ (forall d, datatype r = Some d
                     <-> Forall (fun l => datatype l = Some d)
                           [abc_en; hello_en]).
Proof.
  assert (N : [abc_en; hello_en] <> []) by discriminate.
  assert (S : Forall (fun l => is_string_literal l = true) [abc_en; hello_en])
    by (repeat constructor).
  assert (W : Forall (fun l => well_formed l = true) [abc_en; hello_en])
    by (repeat constructor).
  split; [repeat split; assumption |].
  exact (CONCAT_keeps_shared_language (terms := string_TermLib)
           [abc_en; hello_en] N S W).
Defined.

(** ** [ENCODE_FOR_URI] *)

Lemma quote_byte_safe c : all_chars uri_safe (quote_byte c) = true.
Proof. destruct c as [[] [] [] [] [] [] [] []]; reflexivity. Qed.

Lemma all_chars_append p a b :
  all_chars p (a ++ b) = all_chars p a && all_chars p b.
Proof.
  unfold all_chars. induction a as [| c a IH]; [reflexivity |].
  rewrite append_cons. simpl. now rewrite IH, andb_assoc.
Qed.

Lemma concat_cons (x : string) xs :
  String.concat "" (x :: xs) = (x ++ String.concat "" xs)%string.
Proof.
  destruct xs as [| y xs]; [now cbn; rewrite append_nil_r | reflexivity].
Qed.

Lemma quote_cons b bs : quote (b :: bs) = (quote_byte b ++ quote bs)%string.
Proof. unfold quote. cbn [map]. apply concat_cons. Qed.

Lemma quote_app bs cs : quote (bs ++ cs) = (quote bs ++ quote cs)%string.
Proof.
  induction bs as [| b bs IH]; [reflexivity |].
  cbn [app]. now rewrite !quote_cons, IH, append_assoc.
Qed.

Lemma quote_safe bs : all_chars uri_safe (quote bs) = true.
Proof.
  induction bs as [| b bs IH]; [reflexivity |].
  now rewrite quote_cons, all_chars_append, quote_byte_safe.
Qed.

(** X13.  The lexical form [ENCODE_FOR_URI] returns is made of letters,
    digits, the marks [_.-~], slashes and percent signs only, and the
    literal is plain. *)
Theorem ENCODE_FOR_URI_alphabet {terms : TermLib} arg r :
  Builtin_ENCODE_FOR_URI arg = Ok (TLiteral r) ->
  all_chars uri_safe (lexical r) = true
  /\ language r = None /\ datatype r = None.
Proof.
  unfold Builtin_ENCODE_FOR_URI. intros E.
  destruct (string_ arg) as [s |]; [| discriminate].
  cbn in E. injection E as <-. cbn. split; [apply quote_safe | now split].
Qed.

Lemma ENCODE_FOR_URI_alphabet_witness :
  Builtin_ENCODE_FOR_URI (terms := string_TermLib) (TLiteral (plain "a b/c%"))
  = Ok (TLiteral (plain "a%20b/c%25"))
  /\ all_chars uri_safe "a%20b/c%25" = true.
Proof.
  split; [reflexivity |].
  exact (proj1 (ENCODE_FOR_URI_alphabet (terms := string_TermLib)
                  (TLiteral (plain "a b/c%")) (plain "a%20b/c%25") eq_refl)).
Defined.

Lemma utf8_quote_safe_char c :
  always_safe c || Ascii.eqb c "/" = true ->
  quote (utf8_char c) = String c "".
Proof.
  destruct c as [[] [] [] [] [] [] [] []]; (discriminate || reflexivity).
Qed.

(** X14.  A string of letters, digits, the marks [_.-~] and slashes is
    returned unchanged: in particular a slash is never percent-encoded. *)
Theorem ENCODE_FOR_URI_keeps_safe_and_slash {terms : TermLib} l :
  is_string_literal l = true ->
  all_chars (fun c => always_safe c || Ascii.eqb c "/") (lexical l) = true ->
  exists r,
    Builtin_ENCODE_FOR_URI (TLiteral l) = Ok (TLiteral r)
    /\ lexical r = lexical l.
Proof.
  intros S A. unfold Builtin_ENCODE_FOR_URI.
  rewrite (string_of_string_literal l S). cbn [bind].
  eexists. split; [reflexivity |]. cbn [lexical].
  unfold utf8, all_chars in *.
  induction (lexical l) as [| c s IH]; [reflexivity |].
  cbn [list_ascii_of_string forallb] in A. apply andb_prop in A as [Ac A].
  cbn [list_ascii_of_string map List.concat].
  now rewrite quote_app, (utf8_quote_safe_char c Ac), (IH A).
Qed.

Lemma ENCODE_FOR_URI_keeps_safe_and_slash_witness :
  (is_string_literal (plain "a/b~c") = true
   /\ all_chars (fun c => always_safe c || Ascii.eqb c "/")
        (lexical (plain "a/b~c")) = true)
  /\ exists r,
       Builtin_ENCODE_FOR_URI (terms := string_TermLib)
         (TLiteral (plain "a/b~c")) = Ok (TLiteral r)
       /\ lexical r = "a/b~c".
Proof.
  split; [split; reflexivity |].
  exact (ENCODE_FOR_URI_keeps_safe_and_slash (terms := string_TermLib)
           (plain "a/b~c") eq_refl eq_refl).
Defined.

(** ** Language ranges *)

Lemma split_not_empty sep s : exists first others, split sep s = first :: others.
Proof.
  induction s as [| c s (first & others & IH)]; simpl; [eauto |].
  destruct (Ascii.eqb c sep); [eauto |]. rewrite IH. eauto.
Qed.

Lemma _match_spec r l_ : _match r l_ = true <-> r = "*" \/ r = l_.
Proof. unfold _match. now rewrite orb_true_iff, !String.eqb_eq. Qed.

Lemma zip_match_spec rs ls :
  (List.length ls <? List.length rs)%nat = false
  /\ forallb (fun x => _match x.1 x.2) (combine rs ls) = true
  <-> subtags_match rs ls.
Proof.
  revert ls. induction rs as [| r rs IH]; intros ls.
  - simpl. split; [trivial | intros _; split; [| reflexivity]].
    apply Nat.ltb_ge. lia.
  - destruct ls as [| l_ ls].
    + simpl. split; [intros [L _]; discriminate | tauto].
    + cbn [subtags_match combine forallb List.length fst snd].
      rewrite <- IH, andb_true_iff, _match_spec.
      change (S (List.length ls) <? S (List.length rs))%nat
        with (List.length ls <? List.length rs)%nat.
      tauto.
Qed.

Lemma lang_range_check_spec range lang :
  _lang_range_check range lang = true
  <-> subtags_match (split "-" (lower (strip range)))
        (split "-" (lower (strip lang))).
Proof.
  unfold _lang_range_check.
  destruct (split_not_empty "-" (lower (strip range))) as (r & rs & ->).
  destruct (split_not_empty "-" (lower (strip lang))) as (l_ & ls & ->).
  rewrite <- zip_match_spec. cbn [List.hd combine forallb fst snd].
  destruct (_match r l_); cbn [negb andb].
  - destruct (List.length (l_ :: ls) <? List.length (r :: rs))%nat;
      [split; [discriminate | intros [? _]; discriminate] | tauto].
  - split; [discriminate | intros [_ ?]; discriminate].
Qed.

(** X15.  A language range matches a tag exactly when, both stripped,
    lower-cased and cut at the hyphens, the tag has at least as many
    subtags as the range and each subtag of the range is the wildcard or
    the subtag of the tag at the same place. *)
Theorem lang_range_check_prefix_with_wildcards range lang :
  _lang_range_check range lang = true
  <-> subtags_match (split "-" (lower (strip range)))
        (split "-" (lower (strip lang))).
Proof. apply lang_range_check_spec. Qed.

(** X16.  [LANGMATCHES] with the wildcard range is true of every
    language tag but the empty one, which matches nothing. *)
Theorem LANGMATCHES_wildcard tag range :
  is_string_literal tag = true -> is_string_literal range = true ->
  lower (strip (lexical range)) = "*" ->
  Builtin_LANGMATCHES (TLiteral tag) (TLiteral range)
  = Ok (TLiteral (Literal_bool (negb (String.eqb (lexical tag) "")))).
Proof.
  intros T R W. unfold Builtin_LANGMATCHES.
  rewrite (string_of_string_literal tag T), (string_of_string_literal range R).
  cbn [bind]. destruct (String.eqb (lexical tag) ""); [reflexivity |].
  do 3 f_equal. apply lang_range_check_spec. rewrite W.
  destruct (split_not_empty "-" (lower (strip (lexical tag))))
    as (l_ & ls & ->).
  simpl. tauto.
Qed.

Lemma LANGMATCHES_wildcard_witness :
  (is_string_literal (plain "en-GB") = true
   /\ is_string_literal (plain " * ") = true
   /\ lower (strip (lexical (plain " * "))) = "*")
  /\ Builtin_LANGMATCHES (TLiteral (plain "en-GB")) (TLiteral (plain " * "))
     = Ok (TLiteral (Literal_bool true)).
Proof.
  split; [repeat split |].
  exact (LANGMATCHES_wildcard (plain "en-GB") (plain " * ")
           eq_refl eq_refl eq_refl).
Defined.

Lemma subtags_match_prefix rs more : subtags_match rs (rs ++ more).
Proof. induction rs as [| r rs IH]; simpl; [trivial | tauto]. Qed.

(** X17.  A range whose subtags are the first subtags of a tag that is
    not empty matches it, whatever the case of the letters: a tag matches
    itself, and [en] matches [en-GB]. *)
Theorem LANGMATCHES_prefix tag range more :
  is_string_literal tag = true -> is_string_literal range = true ->
  lexical tag <> "" ->
  split "-" (lower (strip (lexical tag)))
  = (split "-" (lower (strip (lexical range))) ++ more)%list ->
  Builtin_LANGMATCHES (TLiteral tag) (TLiteral range)
  = Ok (TLiteral (Literal_bool true)).
Proof.
  intros T R N P. unfold Builtin_LANGMATCHES.
  rewrite (string_of_string_literal tag T), (string_of_string_literal range R).
  cbn [bind]. apply String.eqb_neq in N. rewrite N.
  do 3 f_equal. apply lang_range_check_spec. rewrite P.
  apply subtags_match_prefix.
Qed.

Lemma LANGMATCHES_prefix_witness :
  (is_string_literal (plain "en-GB") = true
   /\ is_string_literal (plain "EN") = true
   /\ lexical (plain "en-GB") <> ""
   /\ split "-" (lower (strip (lexical (plain "en-GB"))))
      = (split "-" (lower (strip (lexical (plain "EN")))) ++ ["gb"])%list)
  /\ Builtin_LANGMATCHES (TLiteral (plain "en-GB")) (TLiteral (plain "EN"))
     = Ok (TLiteral (Literal_bool true)).
Proof.
  split; [repeat split; discriminate |].
  exact (LANGMATCHES_prefix (plain "en-GB") (plain "EN") ["gb"]
           eq_refl eq_refl ltac:(discriminate) eq_refl).
Defined.

(** A range with more subtags than the tag does not match, and neither
    does a range that differs in a subtag. *)
Lemma LANGMATCHES_examples :
  _lang_range_check "en-GB" "en" = false
  /\ _lang_range_check "de" "en-GB" = false
  /\ _lang_range_check "*-GB" "en-gb" = true
  /\ _lang_range_check "en-*" "en" = false.
Proof. repeat split. Qed.

(** ** Casts *)

Section Casts.
Context {lib : PyLib} {terms : TermLib} {casts : CastLib}.

(** X18.  A cast returns only when it is given exactly one argument,
    which is an IRI or a literal for a cast to [xsd:string] and a literal
    for every other cast. *)
Theorem default_cast_one_argument e v :
  default_cast e = Ok v ->
  exists x,
    expr e = [x]
    /\ ((exists l, x = TLiteral l)
        \/ (iri e = XSD.string /\ exists u, x = TURIRef u)).
Proof.
  unfold default_cast. intros E.
  destruct (expr e) as [| x [| y rest]]; try discriminate.
  exists x. split; [reflexivity |].
  destruct (String.eqb_spec (iri e) XSD.string) as [I | I].
  - destruct x; try discriminate; eauto.
  - destruct x; try discriminate; eauto.
Qed.

(** X19.  Whatever fails inside a cast to a datatype other than
    [xsd:string], the cast raises a [SPARQLError] and nothing else. *)
Theorem default_cast_raises_SPARQLError e err :
  iri e <> XSD.string ->
  default_cast e = Raise err -> is_SPARQLError err = true.
Proof.
  unfold default_cast. intros I E. apply String.eqb_neq in I.
  rewrite I in E.
  repeat case_match; try discriminate; now injection E as <-.
Qed.

(** X20.  A cast to [xsd:boolean] of a literal whose datatype, if any,
    is known and is not [xsd:dateTime] looks at the lexical form alone,
    in lower case: [1] and [true] give true, [0] and [false] give false,
    anything else is an error. *)
Theorem default_cast_boolean x :
  truthy (datatype x) && negb (dt_in (datatype x) XSD_DTs) = false ->
  dt_is (datatype x) XSD.dateTime = false ->
  default_cast (mkFunctionNode XSD.boolean [TLiteral x]) =
    if String.eqb (lower (lexical x)) "1"
       || String.eqb (lower (lexical x)) "true"
    then Ok (TLiteral (Literal_bool true))
    else if String.eqb (lower (lexical x)) "0"
            || String.eqb (lower (lexical x)) "false"
    then Ok (TLiteral (Literal_bool false))
    else Raise (SPARQLError "Cannot interpret as bool").
Proof.
  intros K D. unfold default_cast. cbn [expr iri]. now rewrite K, D.
Qed.

(** X21.  A cast to [xsd:decimal] refuses every lexical form that
    contains the letter [e] or [E], before the decimal is parsed. *)
Theorem default_cast_decimal_rejects_exponent x :
  truthy (datatype x) && negb (dt_in (datatype x) XSD_DTs) = false ->
  dt_is (datatype x) XSD.dateTime = false ->
  Str.contains_char "e" (lexical x) || Str.contains_char "E" (lexical x)
  = true ->
  default_cast (mkFunctionNode XSD.decimal [TLiteral x])
  = Raise (SPARQLError "Cannot interpret as decimal").
Proof.
  intros K D X. unfold default_cast. cbn [expr iri]. now rewrite K, D, X.
Qed.

Lemma register_casts_fresh uris registry :
  NoDup uris -> (forall u, u ∈ uris -> registry !! u = None) ->
  register_casts uris registry = Ok (bind_casts uris registry).
Proof.
  intros N. revert registry.
  induction N as [| u uris Hu N IH]; intros registry F; [reflexivity |].
  cbn [register_casts bind_casts fold_left].
  rewrite register_fresh by (apply F; left). cbn [bind].
  apply IH. intros w Hw. rewrite lookup_insert_ne.
  - apply F. now right.
  - intros ->. contradiction.
Qed.

Lemma bind_casts_lookup uris registry u :
  bind_casts uris registry !! u
  = if bool_decide (u ∈ uris) then Some (default_cast_callable, true)
    else registry !! u.
Proof.
  revert registry. induction uris as [| w uris IH]; intros registry.
  - reflexivity.
  - cbn [bind_casts fold_left]. fold (bind_casts uris (<[w:=(default_cast_callable, true)]> registry)).
    rewrite IH. destruct (decide (u ∈ uris)) as [M | M].
    + rewrite !bool_decide_eq_true_2; [reflexivity | now right | exact M].
    + rewrite (bool_decide_eq_false_2 _ M).
      destruct (decide (u = w)) as [-> | Ne].
      * rewrite lookup_insert_eq, bool_decide_eq_true_2; [reflexivity | left].
      * rewrite lookup_insert_ne by congruence.
        rewrite bool_decide_eq_false_2; [reflexivity |].
        intros H. apply elem_of_cons in H as [? | ?]; contradiction.
Qed.

(** X22.  When the module is loaded its decorators bind the seven cast
    datatypes to [default_cast], raw: registering one of them again
    without [override] raises, dispatch on it calls [default_cast] on
    the node, and dispatch on any other IRI is an unknown function. *)
Theorem casts_are_registered :
  exists registry,
    register_casts cast_IRIs ∅ = Ok registry
    /\ (forall uri func raw args ctx,
          uri ∈ cast_IRIs ->
          register_custom_function registry uri func false raw
          = Raise (ValueError "A function is already registered")
          /\ Function registry (mkFunctionNode uri args) ctx
             = default_cast (mkFunctionNode uri args))
    /\ (forall uri args ctx,
          uri ∉ cast_IRIs ->
          Function registry (mkFunctionNode uri args) ctx
          = Raise (SPARQLError "Unknown function")).
Proof.
  exists (bind_casts cast_IRIs ∅). split.
  - apply register_casts_fresh.
    + apply (bool_decide_unpack _). vm_compute. exact I.
    + intros. apply lookup_empty.
  - split.
    + intros uri func raw args ctx M. split.
      * apply register_taken. rewrite bind_casts_lookup.
        rewrite bool_decide_eq_true_2 by exact M. eauto.
      * unfold Function, iri. rewrite bind_casts_lookup.
        now rewrite bool_decide_eq_true_2 by exact M.
    + intros uri args ctx M. unfold Function, iri.
      rewrite bind_casts_lookup, bool_decide_eq_false_2 by exact M.
      now rewrite lookup_empty.
Qed.

End Casts.

Lemma default_cast_boolean_witness :
  (truthy (datatype (plain "TRUE"))
   && negb (dt_in (datatype (plain "TRUE")) (XSD_DTs (CastLib := no_CastLib)))
   = false
   /\ dt_is (datatype (plain "TRUE")) XSD.dateTime = false)
  /\ default_cast (lib := no_PyLib) (terms := string_TermLib)
       (casts := no_CastLib) (mkFunctionNode XSD.boolean [TLiteral (plain "TRUE")])
     = Ok (TLiteral (Literal_bool true)).
Proof.
  split; [split; reflexivity |].
  exact (default_cast_boolean (lib := no_PyLib) (terms := string_TermLib)
           (casts := no_CastLib) (plain "TRUE") eq_refl eq_refl).
Defined.

Lemma default_cast_decimal_rejects_exponent_witness :
  (truthy (datatype (plain "1e2"))
   && negb (dt_in (datatype (plain "1e2")) (XSD_DTs (CastLib := no_CastLib)))
   = false
   /\ dt_is (datatype (plain "1e2")) XSD.dateTime = false
   /\ Str.contains_char "e" (lexical (plain "1e2"))
      || Str.contains_char "E" (lexical (plain "1e2")) = true)
  /\ default_cast (lib := no_PyLib) (terms := string_TermLib)
       (casts := no_CastLib) (mkFunctionNode XSD.decimal [TLiteral (plain "1e2")])
     = Raise (SPARQLError "Cannot interpret as decimal").
Proof.
  split; [repeat split |].
  exact (default_cast_decimal_rejects_exponent (lib := no_PyLib)
           (terms := string_TermLib) (casts := no_CastLib) (plain "1e2")
           eq_refl eq_refl eq_refl).
Defined.

Lemma default_cast_one_argument_witness :
  default_cast (lib := no_PyLib) (terms := string_TermLib)
    (casts := no_CastLib) (mkFunctionNode XSD.boolean [TLiteral (plain "0")])
  = Ok (TLiteral (Literal_bool false))
  /\ exists x,
       [TLiteral (plain "0")] = [x]
       /\ ((exists l, x = TLiteral l)
           \/ (XSD.boolean = XSD.string /\ exists u, x = TURIRef u)).
Proof.
  split; [reflexivity |].
  exact (default_cast_one_argument (lib := no_PyLib)
           (terms := string_TermLib) (casts := no_CastLib)
           (mkFunctionNode XSD.boolean [TLiteral (plain "0")])
           (TLiteral (Literal_bool false)) eq_refl).
Defined.

Lemma default_cast_raises_SPARQLError_witness :
  (iri (mkFunctionNode XSD.integer []) <> XSD.string
   /\ default_cast (lib := no_PyLib) (terms := string_TermLib)
        (casts := no_CastLib) (mkFunctionNode XSD.integer [])
      = Raise (SPARQLError "Nothing given to cast."))
  /\ is_SPARQLError (SPARQLError "Nothing given to cast.") = true.
Proof.
  split; [split; [discriminate | reflexivity] |].
  exact (default_cast_raises_SPARQLError (lib := no_PyLib)
           (terms := string_TermLib) (casts := no_CastLib)
           (mkFunctionNode XSD.integer []) _
           ltac:(discriminate) eq_refl).
Defined.

(** ** Building and simplifying expressions *)

Lemma simplify_and args :
  and_ (map simplify args) = (let* t := and_ args in Ok (simplify t)).
Proof. destruct args as [| a [| b rest]]; reflexivity. Qed.

(** The conjunction [and_] builds keeps its continuation, a list, when
    it is simplified. *)
Lemma and_continuations_kept args t :
  and_ args = Ok t ->
  forallb continuations_kept args = true -> continuations_kept t = true.
Proof.
  destruct args as [| a [| b rest]]; try discriminate.
  - intros [= <-]. simpl. now rewrite andb_true_r.
  - intros [= <-] K. cbn [forallb] in K.
    apply andb_prop in K as [Ka K].
    cbn -[simplify]. now rewrite Ka, K.
Qed.

(** X23.  Simplifying commutes with the builders of expressions: the
    conjunction of the simplified operands is the simplification of the
    conjunction of the operands, whose node is never collapsed, and the
    negation of a simplified operand is the simplification of its
    negation; on a conjunction of operands whose continuations are kept,
    simplifying twice is simplifying once. *)
Theorem simplify_and_not args t :
  and_ args = Ok t ->
  forallb continuations_kept args = true ->
  and_ (map simplify args) = Ok (simplify t)
  /\ simplify (simplify t) = simplify t
  /\ simplify (not_ t) = not_ (simplify t)
  /\ simplify (simplify (not_ t)) = simplify (not_ t).
Proof.
  intros A K. pose proof (and_continuations_kept args t A K) as Kt.
  split; [now rewrite simplify_and, A |].
  split; [now apply simplify_twice |].
  split; [reflexivity |].
  change (simplify (not_ t)) with (not_ (simplify t)).
  change (simplify (not_ (simplify t))) with (not_ (simplify (simplify t))).
  now rewrite simplify_twice.
Qed.

Lemma simplify_and_not_witness :
  (and_ [wrapped_or; Atom (TVariable "z")]
   = Ok (CompValue "ConditionalAndExpression"
           [("expr", wrapped_or); ("other", PyList [Atom (TVariable "z")])])
   /\ forallb continuations_kept [wrapped_or; Atom (TVariable "z")] = true)
  /\ and_ (map simplify [wrapped_or; Atom (TVariable "z")])
     = Ok (simplify
             (CompValue "ConditionalAndExpression"
                [("expr", wrapped_or);
                 ("other", PyList [Atom (TVariable "z")])])).
Proof.
  split; [split; reflexivity |].
  exact (proj1 (simplify_and_not [wrapped_or; Atom (TVariable "z")] _
                  eq_refl eq_refl)).
Defined.

(** ** Date and time arithmetic: what is refused and what returns *)

Lemma duration_is_not_a_date d :
  dt_in d XSD_Duration_DTs = true -> dt_in d XSD_DateTime_DTs = false.
Proof.
  destruct d as [u |]; [| discriminate]. intros H.
  unfold dt_in, XSD_Duration_DTs in H. simpl in H.
  repeat (apply orb_prop in H; destruct H as [H | H]);
    try discriminate; apply String.eqb_eq in H; subst u; now vm_compute.
Qed.

Section DateTimeEdges.
Context {lib : PyLib} {terms : TermLib}.

(** X24.  A subtraction of two operands of the same date or time
    datatype that is followed by a further operand is refused, but not
    with a [SPARQLError]: building the message reads [dt.datatype] on an
    IRI and raises an [AttributeError]. *)
Theorem chained_subtraction_raises_AttributeError
  (left second : Literal) third more ops :
  dt_in (datatype left) XSD_DateTime_DTs = true ->
  datatype second = datatype left ->
  AdditiveExpression_datetime left ("-" :: ops)
    (TLiteral second :: third :: more)
  = Raise (AttributeError "datatype")
  /\ is_SPARQLError (AttributeError "datatype") = false.
Proof.
  intros D E. split; [| reflexivity].
  unfold AdditiveExpression_datetime.
  cbn [combine additive_datetime_loop literal_of bind List.length].
  rewrite D, E, bool_decide_eq_true_2 by reflexivity. reflexivity.
Qed.

(** X25.  A date, time or dateTime subtracted from a duration is not
    refused: no branch of the loop returns or raises, and the expression
    evaluates to [None]. *)
Theorem duration_minus_date_is_None (left right : Literal) :
  dt_in (datatype left) XSD_Duration_DTs = true ->
  dt_in (datatype right) XSD_DateTime_DTs = true ->
  AdditiveExpression_datetime left ["-"] [TLiteral right] = Ok TNone.
Proof.
  intros L R. unfold AdditiveExpression_datetime.
  cbn [combine additive_datetime_loop literal_of bind].
  now rewrite (duration_is_not_a_date _ L), L, R.
Qed.

End DateTimeEdges.

Lemma chained_subtraction_raises_AttributeError_witness :
  (dt_in (datatype dateTime_literal) XSD_DateTime_DTs = true
   /\ datatype dateTime_literal = datatype dateTime_literal)
  /\ AdditiveExpression_datetime (lib := no_PyLib) (terms := string_TermLib)
       dateTime_literal ["-"; "-"]
       [TLiteral dateTime_literal; TLiteral dateTime_literal]
     = Raise (AttributeError "datatype").
Proof.
  split; [split; reflexivity |].
  exact (proj1 (chained_subtraction_raises_AttributeError
                  (lib := no_PyLib) (terms := string_TermLib)
                  dateTime_literal dateTime_literal
                  (TLiteral dateTime_literal) [] ["-"] eq_refl eq_refl)).
Defined.

Lemma duration_minus_date_is_None_witness :
  (dt_in (datatype P1D_duration) XSD_Duration_DTs = true
   /\ dt_in (datatype date_literal) XSD_DateTime_DTs = true)
  /\ AdditiveExpression_datetime (lib := no_PyLib) (terms := string_TermLib)
       P1D_duration ["-"] [TLiteral date_literal] = Ok TNone.
Proof.
  split; [split; reflexivity |].
  exact (duration_minus_date_is_None (lib := no_PyLib)
           (terms := string_TermLib) P1D_duration date_literal
           eq_refl eq_refl).
Defined.

(** ** [FLOOR] and [CEIL] *)

Lemma floor_ceil_of_integer z :
  Frac_floor (mkFrac z 1) = z /\ Frac_ceil (mkFrac z 1) = z.
Proof.
  unfold Frac_floor, Frac_ceil. simpl. rewrite !Z.div_1_r. lia.
Qed.

Lemma math_floor_ceil_exact v q :
  exact_value v = Some q ->
  math_floor v = Ok (Frac_floor q) /\ math_ceil v = Ok (Frac_ceil q).
Proof.
  unfold math_floor, math_ceil.
  destruct v as [[b | z | f | d | s | c r t] | l]; simpl; try discriminate.
  - intros [= <-]. destruct (floor_ceil_of_integer (if b then 1 else 0)).
    split; congruence.
  - intros [= <-]. destruct (floor_ceil_of_integer z). split; congruence.
  - destruct f as [s | s | | s m e]; simpl; try discriminate;
      now intros [= <-].
  - destruct d as [c e | s |]; simpl; try discriminate. now intros [= <-].
Qed.

(** X26.  For a literal of a numeric datatype whose value is a finite
    number of a magnitude that [str] renders, [FLOOR] returns the
    greatest integer that is not above the value and [CEIL] the least
    integer that is not below it, both under the datatype of the
    operand; they differ by at most one and are within that magnitude
    themselves. *)
Theorem FLOOR_CEIL_bounds l q :
  dt_in (datatype l) numeric_datatypes = true ->
  exact_value (toPython l) = Some q ->
  Z.abs (num q) <= str_int_max * den q ->
  exists lo hi,
    Builtin_FLOOR (TLiteral l) = Ok (TLiteral (Literal_int lo (datatype l)))
    /\ Builtin_CEIL (TLiteral l) = Ok (TLiteral (Literal_int hi (datatype l)))
    /\ lo * den q <= num q < (lo + 1) * den q
    /\ (hi - 1) * den q < num q <= hi * den q
    /\ lo <= hi <= lo + 1
    /\ Z.abs lo <= str_int_max /\ Z.abs hi <= str_int_max.
Proof.
  intros D V M. pose proof (exact_value_den_pos _ _ V) as P.
  set (B := str_int_max) in *. clearbody B.
  exists (Frac_floor q), (Frac_ceil q).
  destruct (math_floor_ceil_exact _ _ V) as [F C].
  unfold Builtin_FLOOR, Builtin_CEIL, numeric.
  rewrite D. cbn [negb bind]. rewrite F, C.
  cbn [bind datatype_of].
  split; [reflexivity |]. split; [reflexivity |].
  destruct q as [n d]. unfold Frac_floor, Frac_ceil. simpl in *.
  pose proof (Z.div_mod n d ltac:(lia)) as E1.
  pose proof (Z.mod_pos_bound n d P) as B1.
  pose proof (Z.div_mod (- n) d ltac:(lia)) as E2.
  pose proof (Z.mod_pos_bound (- n) d P) as B2.
  assert (L : - B <= n / d) by nia.
  assert (H : - (- n / d) <= B) by nia.
  assert (O : n / d <= - (- n / d)) by nia.
  repeat split; try nia; lia.
Qed.

Lemma ten_to_28_rendered :
  Z.abs (num (mkFrac (10 ^ 28) 1)) <= str_int_max * den (mkFrac (10 ^ 28) 1).
Proof. apply Z.leb_le. vm_compute. reflexivity. Defined.

Lemma FLOOR_CEIL_bounds_witness :
  (dt_in (datatype ten_to_28) numeric_datatypes = true
   /\ exact_value (toPython ten_to_28) = Some (mkFrac (10 ^ 28) 1)
   /\ Z.abs (num (mkFrac (10 ^ 28) 1))
      <= str_int_max * den (mkFrac (10 ^ 28) 1))
  /\ exists lo hi,
       Builtin_FLOOR (TLiteral ten_to_28)
       = Ok (TLiteral (Literal_int lo (datatype ten_to_28)))
       /\ Builtin_CEIL (TLiteral ten_to_28)
          = Ok (TLiteral (Literal_int hi (datatype ten_to_28)))
       /\ lo * 1 <= 10 ^ 28 < (lo + 1) * 1
       /\ (hi - 1) * 1 < 10 ^ 28 <= hi * 1
       /\ lo <= hi <= lo + 1
       /\ Z.abs lo <= str_int_max /\ Z.abs hi <= str_int_max.
Proof.
  split; [split; [reflexivity | split; [reflexivity |]] |].
  - exact ten_to_28_rendered.
  - exact (FLOOR_CEIL_bounds ten_to_28 (mkFrac (10 ^ 28) 1) eq_refl eq_refl
             ten_to_28_rendered).
Defined.

Lemma FLOOR_CEIL_examples :
  Builtin_FLOOR (TLiteral decimal_minus_2_5)
  = Ok (TLiteral (typed "-3" XSD.decimal (PyInt (-3))))
  /\ Builtin_CEIL (TLiteral decimal_minus_2_5)
     = Ok (TLiteral (typed "-2" XSD.decimal (PyInt (-2))))
  /\ Builtin_FLOOR (TLiteral double_2_4)
     = Ok (TLiteral (typed "2" XSD.double (PyInt 2)))
  /\ Builtin_CEIL (TLiteral double_2_4)
     = Ok (TLiteral (typed "3" XSD.double (PyInt 3))).
Proof. repeat split. Qed.

(** ** Flags of regular expressions *)

Lemma flag_bits_lor i m s i' m' s' :
  Z.lor (flag_bits i m s) (flag_bits i' m' s')
  = flag_bits (i || i') (m || m') (s || s').
Proof. destruct i, m, s, i', m', s'; reflexivity. Qed.

Lemma flagMap_get_bits f :
  flagMap_get f
  = flag_bits (Ascii.eqb f "i") (Ascii.eqb f "m") (Ascii.eqb f "s").
Proof.
  unfold flagMap_get.
  destruct (Ascii.eqb_spec f "i") as [-> | _]; [reflexivity |].
  destruct (Ascii.eqb_spec f "s") as [-> | _]; [reflexivity |].
  destruct (Ascii.eqb_spec f "m") as [-> | _]; reflexivity.
Qed.

Lemma fold_flags fs i m s :
  fold_left Z.lor (map flagMap_get (list_ascii_of_string fs))
    (flag_bits i m s)
  = flag_bits (i || Str.contains_char "i" fs) (m || Str.contains_char "m" fs)
      (s || Str.contains_char "s" fs).
Proof.
  revert i m s. induction fs as [| f fs IH]; intros i m s.
  - simpl. now rewrite !orb_false_r.
  - cbn [list_ascii_of_string map fold_left Str.contains_char].
    rewrite flagMap_get_bits, flag_bits_lor, IH. now rewrite !orb_assoc.
Qed.

(** X27.  The value of the flags depends only on which of the letters
    [i], [m] and [s] occur in the flags argument: other letters,
    repetitions and the order of the letters change nothing, and an
    absent or empty argument gives 0. *)
Theorem cFlag_of_letters flags :
  cFlag_of flags
  = Ok (flag_bits (Str.contains_char "i" (default "" flags))
          (Str.contains_char "m" (default "" flags))
          (Str.contains_char "s" (default "" flags))).
Proof.
  destruct flags as [[| f fs] |]; try reflexivity.
  unfold cFlag_of. cbn [truthy String.eqb negb default].
  cbn [list_ascii_of_string map reduce Str.contains_char].
  now rewrite flagMap_get_bits, fold_flags.
Qed.
